(** * Real-estate listing extraction and monitor scheduling

    A shallow embedding of the decision logic of the real-estate agent:
    - [Tools]     : src/realEstateTools.js, the tiered extraction pipeline
                    (specialised actor, rendered page, model extraction,
                    pattern extraction, simple HTTP scraping);
    - [Scheduler] : scheduler.js, the monitor sweep (eligibility, novelty
                    diff, rescheduling).

    JavaScript values are embedded in [Js]; awaited collaborators (Apify
    actors, the page loader, the chat model, axios/cheerio, the key-value
    store, the clock) are explicit arguments. *)

From Stdlib Require Import ZArith QArith List Bool Ascii Lia.
From stdpp Require Import gmap strings pretty list.
Import ListNotations.
Close Scope Q_scope.
Open Scope Z_scope.
Open Scope string_scope.

Set Warnings "-register-all,-abstract-large-number".

(* ===================================================================== *)
(** ** JavaScript values and control flow *)
(* ===================================================================== *)

Module Js.

(** What [JSON.parse] can return.  Numbers are kept as rationals: every
    finite double is one, and the program only tests them for zero and
    for equality.  An object lists its properties with the values they
    read as, each key once. *)
Inductive json : Type :=
| JNull
| JBool (b : bool)
| JNum (q : Q)
| JStr (s : string)
| JArr (items : list json)
| JObj (props : list (string * json)).

(** What a property read or an [||] chain can yield: a parsed value, or
    [undefined], or a (built-in) function. *)
Inductive value : Type :=
| Undefined
| Function
| J (j : json).

Definition str (s : string) : value := J (JStr s).

(** ToBoolean. *)
Definition truthy (v : value) : bool :=
  match v with
  | Undefined => false
  | Function => true
  | J JNull => false
  | J (JBool b) => b
  | J (JNum q) => negb (Qeq_bool q 0)
  | J (JStr s) => negb (String.eqb s EmptyString)
  | J (JArr _) | J (JObj _) => true
  end.

(** [a || b]. *)
Definition or_else (a b : value) : value := if truthy a then a else b.

(** [s || d] on strings: the empty string is the only falsy one. *)
Definition str_or (s d : string) : string := if String.eqb s EmptyString then d else s.

Fixpoint assoc (k : string) (props : list (string * json)) : value :=
  match props with
  | [] => Undefined
  | (k', v) :: rest => if String.eqb k k' then J v else assoc k rest
  end.

(** [item.k] for a non-null [item].  Of the property names this program
    reads, only [link] exists on a prototype (String.prototype.link);
    numbers, booleans and arrays have none of them. *)
Definition get (item : json) (k : string) : value :=
  match item with
  | JObj props => assoc k props
  | JStr _ => if String.eqb k "link" then Function else Undefined
  | _ => Undefined
  end.

(** SameValueZero, the equality of [Set.prototype.has].  Arrays and objects
    compare by reference; the two sides always come from two different
    [JSON.parse] calls here, so they are never the same reference. *)
Definition same_value_zero (a b : value) : bool :=
  match a, b with
  | Undefined, Undefined => true
  | Function, Function => true
  | J JNull, J JNull => true
  | J (JBool x), J (JBool y) => Bool.eqb x y
  | J (JNum x), J (JNum y) => Qeq_bool x y
  | J (JStr x), J (JStr y) => String.eqb x y
  | _, _ => false
  end.

(** A [Set] of values, in insertion order. *)
Definition Set_has (s : list value) (v : value) : bool :=
  existsb (same_value_zero v) s.

Definition Set_add (s : list value) (v : value) : list value :=
  if Set_has s v then s else (s ++ [v])%list.

Definition new_Set (vs : list value) : list value := fold_left Set_add vs [].

(** What survives [JSON.stringify] followed by [JSON.parse] in a property
    position: functions and [undefined] are dropped. *)
Definition revive (v : value) : value :=
  match v with
  | Function => Undefined
  | _ => v
  end.

(** Completion of a computation: a value, or a thrown error (its message). *)
Inductive result (A : Type) : Type :=
| Ok (a : A)
| Throw (message : string).
Arguments Ok {A} a.
Arguments Throw {A} message.

Definition rbind {A B} (m : result A) (f : A -> result B) : result B :=
  match m with
  | Ok a => f a
  | Throw e => Throw e
  end.

Fixpoint rmapM {A B} (f : A -> result B) (l : list A) : result (list B) :=
  match l with
  | [] => Ok []
  | x :: rest =>
      rbind (f x) (fun y => rbind (rmapM f rest) (fun ys => Ok (y :: ys)))
  end.

(** Strings. *)
Definition NL : string := String "010"%char EmptyString.

(** The one-character string holding a double quote. *)
Definition DQ : string := String "034"%char EmptyString.

Definition startsWith (s p : string) : bool := String.prefix p s.

Fixpoint endsWith (s p : string) : bool :=
  String.eqb s p
  || match s with
     | String _ s' => endsWith s' p
     | EmptyString => false
     end.

(** White space of [\s] among the first 256 code units. *)
Definition is_ws (c : ascii) : bool :=
  let n := nat_of_ascii c in
  ((9 <=? n) && (n <=? 13) || (n =? 32) || (n =? 160))%nat.

Fixpoint drop_str (n : nat) (s : string) : string :=
  match n, s with
  | O, _ => s
  | S n', String _ s' => drop_str n' s'
  | S _, EmptyString => EmptyString
  end.

(** [find pat s]: the text before the first occurrence of [pat] in [s] and
    the text after it. *)
Fixpoint find (pat s : string) : option (string * string) :=
  if String.prefix pat s then Some (EmptyString, drop_str (String.length pat) s)
  else match s with
       | EmptyString => None
       | String c s' =>
           match find pat s' with
           | Some (before, after) => Some (String c before, after)
           | None => None
           end
       end.

(** The greedy [\s*]: the white-space run and what follows it. *)
Fixpoint take_ws (s : string) : string * string :=
  match s with
  | String c s' =>
      if is_ws c then let '(w, r) := take_ws s' in (String c w, r) else (EmptyString, s)
  | EmptyString => (EmptyString, EmptyString)
  end.

End Js.

(* ===================================================================== *)
(** ** src/realEstateTools.js *)
(* ===================================================================== *)

Module Tools.
Import Js.

(** The arguments of [searchRealEstateListingsTool.func], after the schema
    has filled in its defaults. *)
Module Criteria.
Record t : Type := mk {
  location : string;
  minPrice : option Z;
  maxPrice : option Z;
  propertyType : string;
  bedrooms : option Z;
  bathrooms : option Z;
  maxResults : Z;
  source : string;
  forceFallback : bool }.
End Criteria.

Record Details : Type := {
  bedrooms : value;
  bathrooms : value;
  squareFeet : value }.

(** A listing object.  A property the object literal does not have reads
    as [Undefined]. *)
Record Listing : Type := {
  title : value;
  price : value;
  address : value;
  details : Details;
  description : value;
  url : value;
  source : value;
  imageUrl : value;
  listingAgent : value;
  listingStatus : value }.

(** The object every tier hands to [JSON.stringify]. *)
Record ExtractionResult : Type := {
  count : Z;
  listings : list Listing;
  note : option string;
  error : option string }.

Definition len {A} (l : list A) : Z := Z.of_nat (length l).

Definition failure (message : string) : ExtractionResult :=
  {| count := 0; listings := []; note := None; error := Some message |}.

(** [JSON.parse (JSON.stringify r)]: what a caller of the tool reads back. *)
Definition revive_listing (l : Listing) : Listing :=
  {| title := revive (title l);
     price := revive (price l);
     address := revive (address l);
     details := {| bedrooms := revive (bedrooms (details l));
                   bathrooms := revive (bathrooms (details l));
                   squareFeet := revive (squareFeet (details l)) |};
     description := revive (description l);
     url := revive (url l);
     source := revive (source l);
     imageUrl := revive (imageUrl l);
     listingAgent := revive (listingAgent l);
     listingStatus := revive (listingStatus l) |}.

Definition reparse (r : ExtractionResult) : ExtractionResult :=
  {| count := count r;
     listings := map revive_listing (listings r);
     note := note r;
     error := error r |}.

(** *** Collaborators *)

(** One property card selected by cheerio: the trimmed text of its first
    anchor, the first price-looking substring of its text, and the [href]
    of its first anchor. *)
Record Card : Type := {
  anchorText : string;
  priceText : option string;
  href : option string }.

(** The outside world during one search.  Each awaited call either yields
    a value or throws.  The request objects and URLs the code derives from
    the criteria are not rebuilt here: a collaborator is given the
    criteria themselves. *)
Record World : Type := {
  env_APIFY_TOKEN : bool;
  (** [Actor.call] followed by [dataset(...).listItems()]. *)
  Actor_call : string -> Criteria.t -> result (list json);
  (** [Actor.charge]: [None] when the charge goes through. *)
  Actor_charge : string -> option string;
  (** [loader.load()]: the [pageContent] of the loaded documents. *)
  loader_load : Criteria.t -> result (list string);
  (** [model.invoke(propertyPrompt)], as a function of the two varying
      parts of the prompt: the criteria sentence and the page excerpt. *)
  model_invoke : string -> string -> result string;
  (** [axios.get] then [cheerio.load] and the card selector. *)
  axios_get : Criteria.t -> result (list Card) }.

(** Library functions of the language runtime the code relies on. *)
Record Runtime : Type := {
  JSON_parse : string -> result json;
  (** [[...content.matchAll(p)].map(m => m[0])] for the price and address
      patterns, [m[1]] for the bedroom, bathroom and area patterns. *)
  matchAll_price : string -> list string;
  matchAll_address : string -> list string;
  matchAll_bedroom : string -> list string;
  matchAll_bathroom : string -> list string;
  matchAll_sqft : string -> list string }.

(** *** Awaited code: a trace of collaborator calls and a completion *)

Inductive Event : Type :=
| EvActorCall (actorId : string)
| EvCharge (eventName : string)
| EvPageLoad
| EvModelInvoke
| EvHttpGet.

Definition Run (A : Type) : Type := list Event * result A.

Definition ret {A} (a : A) : Run A := ([], Ok a).

Definition throw {A} (message : string) : Run A := ([], Throw message).

Definition bind {A B} (m : Run A) (f : A -> Run B) : Run B :=
  match m with
  | (t, Ok a) => let '(t', r) := f a in ((t ++ t')%list, r)
  | (t, Throw e) => (t, Throw e)
  end.

(** [try { m } catch (e) { handler e }]. *)
Definition try_catch {A} (m : Run A) (handler : string -> Run A) : Run A :=
  match m with
  | (t, Ok a) => (t, Ok a)
  | (t, Throw e) => let '(t', r) := handler e in ((t ++ t')%list, r)
  end.

(** An awaited collaborator call. *)
Definition call {A} (ev : Event) (outcome : result A) : Run A := ([ev], outcome).

Notation "x <- m ;; k" := (bind m (fun x => k))
  (at level 100, m at next level, right associativity).
Notation "m ;;; k" := (bind m (fun _ => k))
  (at level 100, right associativity).

Definition charge (w : World) (eventName : string) : Run unit :=
  call (EvCharge eventName)
       (match Actor_charge w eventName with
        | None => Ok tt
        | Some e => Throw e
        end).

Fixpoint repeat_run (n : nat) (m : Run unit) : Run unit :=
  match n with
  | O => ret tt
  | S n' => m ;;; repeat_run n' m
  end.

Definition type_error_null (prop : string) : string :=
  "Cannot read properties of null (reading '" +:+ prop +:+ "')".

(** *** processRealEstateListings (tier 1 mapping) *)

Definition actor_listing (item : json) (source : string) : result Listing :=
  match item with
  | JNull => Throw (type_error_null "name")
  | _ =>
    Ok {| title := or_else (get item "name")
                     (or_else (get item "address") (str "Property Listing"));
          price := or_else (get item "price")
                     (or_else (get item "listPrice") (str "Price not specified"));
          address := or_else (get item "address")
                       (or_else (get item "streetAddress") (str "Address not specified"));
          details :=
            {| bedrooms := or_else (get item "bedrooms")
                             (or_else (get item "beds") (str "Not specified"));
               bathrooms := or_else (get item "bathrooms")
                              (or_else (get item "baths") (str "Not specified"));
               squareFeet := or_else (get item "livingArea")
                               (or_else (get item "sqft") (str "Not specified")) |};
          description := or_else (get item "description") (str EmptyString);
          url := or_else (get item "detailUrl") (or_else (get item "url") (str EmptyString));
          source := str source;
          imageUrl := or_else (get item "imgSrc") (or_else (get item "imageUrl") (str EmptyString));
          listingAgent := or_else (get item "brokerName")
                            (or_else (get item "agent") (str "Not specified"));
          listingStatus := or_else (get item "homeStatus")
                             (or_else (get item "status") (str "For Sale")) |}
  end.

Definition processRealEstateListings (items : list json) (source : string)
  : ExtractionResult :=
  match rmapM (fun item => actor_listing item source) items with
  | Ok listings =>
      {| count := len listings; listings := listings; note := None; error := None |}
  | Throw message => failure message
  end.

(** *** processLLMResponse (model extraction) *)

(** A successful [String.prototype.match]: element 0 and capture group 1. *)
Record Match : Type := { whole : string; group1 : option string }.

Definition fence_open : string := "```json" +:+ NL.
Definition fence_close : string := NL +:+ "```".

(** [/```json\n([\s\S]*?)\n```/]: the first opening fence and, lazily, the
    first closing fence after it. *)
Definition match_fenced (text : string) : option Match :=
  match find fence_open text with
  | Some (_, rest) =>
      match find fence_close rest with
      | Some (body, _) =>
          Some {| whole := fence_open +:+ body +:+ fence_close; group1 := Some body |}
      | None => None
      end
  | None => None
  end.

(** The tail of the second pattern: a lazy run of any characters (flag [s]:
    the dot matches every character), a double quote, optional white space
    and a colon.  Lazily: the text up to and including the first double
    quote that is followed by optional white space and a colon. *)
Fixpoint lazy_key (s : string) : option string :=
  match s with
  | EmptyString => None
  | String c s' =>
      let '(w, r) := take_ws s' in
      if Ascii.eqb c "034"%char && String.prefix ":" r
      then Some (String c (w +:+ ":"))
      else match lazy_key s' with
           | Some m => Some (String c m)
           | None => None
           end
  end.

(** The second pattern of [processLLMResponse], anchored at the start of
    [s]: an opening bracket, white space, an opening brace, white space, a
    double quote, and the tail above. *)
Definition bare_at (s : string) : option string :=
  match s with
  | String "["%char s1 =>
      let '(w1, r1) := take_ws s1 in
      match r1 with
      | String "{"%char s2 =>
          let '(w2, r2) := take_ws s2 in
          match r2 with
          | String "034"%char s3 =>
              match lazy_key s3 with
              | Some m => Some ("[" +:+ w1 +:+ "{" +:+ w2 +:+ DQ +:+ m)
              | None => None
              end
          | _ => None
          end
      | _ => None
      end
  | _ => None
  end.

(** The same pattern, unanchored: the leftmost match.  It has no capture
    group. *)
Fixpoint match_bare (text : string) : option Match :=
  match bare_at text with
  | Some m => Some {| whole := m; group1 := None |}
  | None =>
      match text with
      | EmptyString => None
      | String _ rest => match_bare rest
      end
  end.

Definition model_listing (item : json) (source modelUsed : string) : result Listing :=
  match item with
  | JNull => Throw (type_error_null "title")
  | _ =>
    Ok {| title := or_else (get item "title")
                     (or_else (get item "address") (str "Property Listing"));
          price := or_else (get item "price") (str "Price not specified");
          address := or_else (get item "address") (str "Address not specified");
          details :=
            {| bedrooms := or_else (get item "bedrooms")
                             (or_else (get item "beds") (str "Not specified"));
               bathrooms := or_else (get item "bathrooms")
                              (or_else (get item "baths") (str "Not specified"));
               squareFeet := or_else (get item "squareFeet")
                               (or_else (get item "sqft")
                                  (or_else (get item "area") (str "Not specified"))) |};
          description := or_else (get item "description") (str EmptyString);
          url := or_else (get item "url") (or_else (get item "link") (str EmptyString));
          source := str (str_or source "real-estate-site" +:+ " (" +:+ modelUsed
                         +:+ " extraction)");
          imageUrl := Undefined;
          listingAgent := Undefined;
          listingStatus := Undefined |}
  end.

Definition processLLMResponse (rt : Runtime) (responseText source modelUsed : string)
  : option ExtractionResult :=
  let jsonMatch :=
    match match_fenced responseText with
    | Some m => Some m
    | None => match_bare responseText
    end in
  match jsonMatch with
  | Some m =>
      let jsonText :=
        match group1 m with
        | Some g => str_or g (whole m)
        | None => whole m
        end in
      let jsonText :=
        if startsWith jsonText "[" && negb (endsWith jsonText "]")
        then jsonText +:+ "]" else jsonText in
      let attempt :=
        rbind (JSON_parse rt jsonText) (fun parsedListings =>
        let listings :=
          match parsedListings with
          | JArr items => items
          | _ => [parsedListings]
          end in
        rbind (rmapM (fun item => model_listing item source modelUsed) listings)
          (fun formattedListings =>
        Ok {| count := len formattedListings;
              listings := formattedListings;
              note := Some ("Results extracted using Puppeteer and " +:+ modelUsed
                            +:+ " processing");
              error := None |})) in
      match attempt with
      | Ok r => Some r
      | Throw _ => None
      end
  | None => None
  end.

(** *** processDocumentWithPatterns (pattern extraction) *)

(** [i < tokens.length ? tokens[i] : placeholder]. *)
Definition token_or (tokens : list string) (i : nat) (placeholder : string) : value :=
  str (default placeholder (tokens !! i)).

Definition pattern_listing (prices addresses bedrooms bathrooms sqfts : list string)
    (source : string) (i : nat) : Listing :=
  {| title := str ("Property in " +:+ str_or source "listed area");
     price := token_or prices i "Price not specified";
     address := token_or addresses i "Address not specified";
     details :=
       {| bedrooms := token_or bedrooms i "Not specified";
          bathrooms := token_or bathrooms i "Not specified";
          squareFeet := token_or sqfts i "Not specified" |};
     description := str ("Property extracted from " +:+ str_or source "real estate website"
                         +:+ " using pattern matching.");
     url := str EmptyString;
     source := str (str_or source "real-estate-site" +:+ " (pattern extraction)");
     imageUrl := Undefined;
     listingAgent := Undefined;
     listingStatus := Undefined |}.

Definition maxEntries (prices addresses bedrooms bathrooms sqfts : list string) : Z :=
  Z.min (len prices)
    (Z.min (Z.max (len addresses) 10)
       (Z.min (Z.max (len bedrooms) 10)
          (Z.min (Z.max (len bathrooms) 10)
                 (Z.max (len sqfts) 10)))).

(** The [try] block.  Matching a string against a constant pattern does not
    throw, so the [catch] block of the source is not reached from here; the
    object it returns is [patternFailure]. *)
Definition processDocumentWithPatterns (rt : Runtime) (content source : string)
  : ExtractionResult :=
  let prices := matchAll_price rt content in
  let addresses := matchAll_address rt content in
  let bedrooms := matchAll_bedroom rt content in
  let bathrooms := matchAll_bathroom rt content in
  let sqfts := matchAll_sqft rt content in
  let n := maxEntries prices addresses bedrooms bathrooms sqfts in
  let listings :=
    map (pattern_listing prices addresses bedrooms bathrooms sqfts source)
        (seq 0 (Z.to_nat n)) in
  {| count := len listings;
     listings := listings;
     note := Some "Results extracted using pattern matching";
     error := None |}.

Definition patternFailure (message : string) : ExtractionResult :=
  failure ("Pattern matching extraction failed: " +:+ message).

(** *** simpleScrapingFallback (tier 5) *)

Definition card_listing (source : string) (card : Card) : Listing :=
  {| title := str (str_or (anchorText card) "Property Listing");
     price := str (default "Price not specified" (priceText card));
     address := str "Address extraction requires more detailed parsing";
     details :=
       {| bedrooms := str "Not specified in simple parsing";
          bathrooms := str "Not specified in simple parsing";
          squareFeet := str "Not specified in simple parsing" |};
     description := str "Limited information available from simple parsing";
     url := str (match href card with
                 | Some relativeUrl =>
                     if String.eqb relativeUrl EmptyString then EmptyString
                     else if startsWith relativeUrl "http" then relativeUrl
                     else "https://" +:+ source +:+ ".com" +:+ relativeUrl
                 | None => EmptyString
                 end);
     source := str (source +:+ " (simple parsing fallback)");
     imageUrl := Undefined;
     listingAgent := Undefined;
     listingStatus := Undefined |}.

Definition simpleScrapingFallback (w : World) (c : Criteria.t) : Run ExtractionResult :=
  try_catch
    (cards <- call EvHttpGet (axios_get w c) ;;
     let listings := map (card_listing (Criteria.source c)) cards in
     ret {| count := len listings;
            listings := listings;
            note := Some "Results from simple parsing fallback may be limited in detail";
            error := None |})
    (fun message => ret (failure ("Simple scraping fallback failed: " +:+ message))).

(** *** extractListingsWithLLM (tier 3) *)

Definition extractListingsWithLLM (w : World) (rt : Runtime)
    (content criteria source : string) : Run (option ExtractionResult) :=
  try_catch
    (response <- call EvModelInvoke
                   (model_invoke w criteria (String.substring 0 12000 content)) ;;
     ret (processLLMResponse rt response source "OpenAI"))
    (fun _ => ret None).

(** *** fallbackToPuppeteerWebBaseLoader (tiers 2 to 5) *)

(** [n ? label + n : ''] for an optional number: 0 is falsy. *)
Definition number_clause (label : string) (n : option Z) : string :=
  match n with
  | Some z => if Z.eqb z 0 then EmptyString else label +:+ pretty z
  | None => EmptyString
  end.

Definition criteria_sentence (c : Criteria.t) : string :=
  String.concat ", "
    (List.filter (fun s => negb (String.eqb s EmptyString))
       [ number_clause "Minimum price: $" (Criteria.minPrice c);
         number_clause "Maximum price: $" (Criteria.maxPrice c);
         (if negb (String.eqb (Criteria.propertyType c) EmptyString)
             && negb (String.eqb (Criteria.propertyType c) "any")
          then "Property type: " +:+ Criteria.propertyType c else EmptyString);
         number_clause "Minimum bedrooms: " (Criteria.bedrooms c);
         number_clause "Minimum bathrooms: " (Criteria.bathrooms c) ]).

Definition bothFailed (original fallback : string) : ExtractionResult :=
  failure ("Both Puppeteer and simple scraping failed. Original error: " +:+ original
           +:+ ". Fallback error: " +:+ fallback).

Definition fallbackToPuppeteerWebBaseLoader (w : World) (rt : Runtime) (c : Criteria.t)
  : Run ExtractionResult :=
  let source := Criteria.source c in
  try_catch
    (docs <- call EvPageLoad (loader_load w c) ;;
     match docs with
     | pageContent :: _ =>
         llmResult <- extractListingsWithLLM w rt pageContent (criteria_sentence c) source ;;
         match llmResult with
         | Some r =>
             if Z.ltb 0 (count r) then ret r
             else ret (processDocumentWithPatterns rt pageContent source)
         | None => ret (processDocumentWithPatterns rt pageContent source)
         end
     | [] => throw "No content was loaded from the page"
     end)
    (fun original =>
       try_catch (simpleScrapingFallback w c)
         (fun fallback => ret (bothFailed original fallback))).

(** *** searchRealEstateListingsTool.func *)

Definition actorId_of (source : string) : string :=
  if String.eqb source "zillow" then "maxcopell/zillow-scraper"
  else if String.eqb source "redfin" then "dtrungtin/redfin-scraper"
  else if String.eqb source "realtor" then "dtrungtin/realtor-scraper"
  else "scrapestorm/zillow-search-scraper-all-in-one".

(** The charges after a successful actor run; the first one that throws
    ends them, and the error is only logged. *)
Definition charge_for_listings (w : World) (items : list json) (source : string)
  : Run unit :=
  try_catch
    (if Z.ltb 0 (len items) then
       repeat_run (Z.to_nat ((len items + 99) / 100)) (charge w "data-volume") ;;;
       (if String.eqb source "redfin" || String.eqb source "realtor"
        then charge w "premium-source" else ret tt) ;;;
       repeat_run (Z.to_nat (Z.min (len items) 20)) (charge w "listing-found")
     else ret tt)
    (fun _ => ret tt).

Definition func (w : World) (rt : Runtime) (c : Criteria.t) : Run ExtractionResult :=
  if negb (env_APIFY_TOKEN w)
  then throw "APIFY_TOKEN is required but not set in your environment variables"
  else if Criteria.forceFallback c
  then fallbackToPuppeteerWebBaseLoader w rt c
  else
    let source := Criteria.source c in
    try_catch
      (items <- call (EvActorCall (actorId_of source))
                  (Actor_call w (actorId_of source) c) ;;
       let listings := processRealEstateListings items source in
       charge_for_listings w items source ;;;
       ret listings)
      (fun _ =>
         try_catch (charge w "fallback-extraction") (fun _ => ret tt) ;;;
         fallbackToPuppeteerWebBaseLoader w rt c).

(** [searchRealEstateListingsTool.invoke(args)] followed by [JSON.parse]:
    what the scheduler reads. *)
Definition invoke_and_parse (w : World) (rt : Runtime) (c : Criteria.t)
  : result ExtractionResult :=
  match snd (func w rt c) with
  | Ok r => Ok (reparse r)
  | Throw e => Throw e
  end.

End Tools.

(* ===================================================================== *)
(** ** scheduler.js *)
(* ===================================================================== *)

Module Scheduler.
Import Js Tools.

(** A monitor configuration as kept in the key-value store.  Instants are
    milliseconds since the epoch (an ISO string and the [Date] it parses to
    carry the same number).  [lastResults] holds the JSON text returned by
    the search tool, represented by the object it parses to. *)
Module MonitorConfig.
Record criteria_t : Type := mkCriteria {
  location : string;
  minPrice : option Z;
  maxPrice : option Z;
  propertyType : string;
  bedrooms : option Z;
  bathrooms : option Z }.
Record t : Type := mk {
  id : string;
  createdAt : Z;
  criteria : criteria_t;
  frequency : option string;
  notificationEmail : option string;
  lastChecked : option Z;
  lastResults : option ExtractionResult;
  nextRun : option Z }.
End MonitorConfig.

(** [(currentTime - lastChecked) / (1000 * 60 * 60)].  The difference of two
    instants is an exact integer and the thresholds below are far apart
    from their neighbours, so the rational quotient decides the
    comparisons as the floating-point one does. *)
Definition hoursSince (currentTime lastChecked : Z) : Q :=
  (inject_Z (currentTime - lastChecked) / inject_Z (1000 * 60 * 60))%Q.

Definition shouldRunMonitor (monitorConfig : MonitorConfig.t) (currentTime : Z) : bool :=
  match MonitorConfig.lastChecked monitorConfig with
  | None => true
  | Some lastChecked =>
      let hoursSinceLastCheck := hoursSince currentTime lastChecked in
      match MonitorConfig.frequency monitorConfig with
      | Some f =>
          if String.eqb f "realtime" then Qle_bool (1 # 4) hoursSinceLastCheck
          else if String.eqb f "daily" then Qle_bool (inject_Z 24) hoursSinceLastCheck
          else if String.eqb f "weekly" then Qle_bool (inject_Z 168) hoursSinceLastCheck
          else Qle_bool (inject_Z 24) hoursSinceLastCheck
      | None => Qle_bool (inject_Z 24) hoursSinceLastCheck
      end
  end.

Definition minutes (n : Z) : Z := n * 60 * 1000.
Definition days (n : Z) : Z := n * 24 * 60 * 60 * 1000.

(** [getNextRunTime] reads the clock itself ([new Date()]): [clock] is that
    reading.  [setMinutes] and [setDate] move the local calendar fields; in
    a zone whose offset stays the same over the interval (UTC on the
    platform) that is the addition below. *)
Definition getNextRunTime (clock : Z) (frequency : option string) : Z :=
  match frequency with
  | Some f =>
      if String.eqb f "realtime" then clock + minutes 15
      else if String.eqb f "daily" then clock + days 1
      else if String.eqb f "weekly" then clock + days 7
      else clock + days 1
  | None => clock + days 1
  end.

(** [previousListings] is [None] when the argument is absent. *)
Definition findNewListings (currentListings : list Listing)
    (previousListings : option (list Listing)) : list Listing :=
  match previousListings with
  | None => currentListings
  | Some [] => currentListings
  | Some previous =>
      let existingUrls := new_Set (map url previous) in
      List.filter (fun listing => negb (Set_has existingUrls (url listing))) currentListings
  end.

(** *** processAllMonitors *)

(** The lines the loop writes to the log, one per monitor id. *)
Inductive LogEntry : Type :=
| NotFound (monitorId : string)
| Skipping (monitorId : string)
| FoundNew (monitorId : string) (newListings : list Listing)
| NoNew (monitorId : string)
| ErrorProcessing (monitorId : string) (message : string).

(** The store [real-estate-monitors]: the entry [monitors-list] and one
    entry per monitor id.  Reads and writes of the store do not fail. *)
Record Store : Type := {
  monitors_list : option (list string);
  configs : gmap string MonitorConfig.t }.

(** The loop state: the store entries, the two counters and the log. *)
Record Sweep : Type := {
  entries : gmap string MonitorConfig.t;
  processedCount : Z;
  updatedCount : Z;
  log : list LogEntry }.

Definition search_args (monitorConfig : MonitorConfig.t) : Criteria.t :=
  let criteria := MonitorConfig.criteria monitorConfig in
  {| Criteria.location := MonitorConfig.location criteria;
     Criteria.minPrice := MonitorConfig.minPrice criteria;
     Criteria.maxPrice := MonitorConfig.maxPrice criteria;
     Criteria.propertyType := MonitorConfig.propertyType criteria;
     Criteria.bedrooms := MonitorConfig.bedrooms criteria;
     Criteria.bathrooms := MonitorConfig.bathrooms criteria;
     Criteria.maxResults := 20;
     Criteria.source := "any";
     Criteria.forceFallback := false |}.

Definition rescheduled (monitorConfig : MonitorConfig.t) (now clock : Z)
    (searchResult : ExtractionResult) : MonitorConfig.t :=
  {| MonitorConfig.id := MonitorConfig.id monitorConfig;
     MonitorConfig.createdAt := MonitorConfig.createdAt monitorConfig;
     MonitorConfig.criteria := MonitorConfig.criteria monitorConfig;
     MonitorConfig.frequency := MonitorConfig.frequency monitorConfig;
     MonitorConfig.notificationEmail := MonitorConfig.notificationEmail monitorConfig;
     MonitorConfig.lastChecked := Some now;
     MonitorConfig.lastResults := Some searchResult;
     MonitorConfig.nextRun :=
       Some (getNextRunTime clock (MonitorConfig.frequency monitorConfig)) |}.

Definition logged (st : Sweep) (e : LogEntry) : Sweep :=
  {| entries := entries st;
     processedCount := processedCount st;
     updatedCount := updatedCount st;
     log := (log st ++ [e])%list |}.

Section Sweep.

(** The search tool during the [i]-th turn of the loop: what
    [searchRealEstateListingsTool.invoke] followed by [JSON.parse] gives. *)
Variable search : nat -> Criteria.t -> result ExtractionResult.

(** The clock as [getNextRunTime] reads it during the [i]-th turn. *)
Variable clock : nat -> Z.

(** One turn of the [for] loop, with its [try]/[catch]. *)
Definition process_monitor (now : Z) (i : nat) (st : Sweep) (monitorId : string)
  : Sweep :=
  match entries st !! monitorId with
  | None => logged st (NotFound monitorId)
  | Some monitorConfig =>
      if negb (shouldRunMonitor monitorConfig now)
      then logged st (Skipping monitorId)
      else
        match search i (search_args monitorConfig) with
        | Throw message => logged st (ErrorProcessing monitorId message)
        | Ok parsedResult =>
            let newListings :=
              findNewListings (listings parsedResult)
                (Some (match MonitorConfig.lastResults monitorConfig with
                       | Some previous => listings previous
                       | None => []
                       end)) in
            (* [notifyUser] logs and charges; a failed charge is caught
               there, so it always returns. *)
            let notified := Z.ltb 0 (len newListings) in
            {| entries :=
                 <[monitorId := rescheduled monitorConfig now (clock i) parsedResult]>
                   (entries st);
               processedCount := processedCount st + 1;
               updatedCount :=
                 if notified then updatedCount st + 1 else updatedCount st;
               log := (log st ++
                       [if notified then FoundNew monitorId newListings
                        else NoNew monitorId])%list |}
        end
  end.

Fixpoint sweep_from (now : Z) (i : nat) (monitorsList : list string) (st : Sweep)
  : Sweep :=
  match monitorsList with
  | [] => st
  | monitorId :: rest =>
      sweep_from now (S i) rest (process_monitor now i st monitorId)
  end.

Definition start (s : Store) : Sweep :=
  {| entries := configs s; processedCount := 0; updatedCount := 0; log := [] |}.

(** [now] is the instant read once, before the loop. *)
Definition run_sweep (now : Z) (s : Store) : Sweep :=
  sweep_from now 0 (default [] (monitors_list s)) (start s).

Record Counters : Type := { processed : Z; updated : Z }.

Definition processAllMonitors (now : Z) (s : Store) : Counters * Store :=
  let monitorsList := default [] (monitors_list s) in
  match monitorsList with
  | [] => ({| processed := 0; updated := 0 |}, s)
  | _ =>
      let st := run_sweep now s in
      ({| processed := processedCount st; updated := updatedCount st |},
       {| monitors_list := monitors_list s; configs := entries st |})
  end.

End Sweep.

(** The sweep wired to the search tool of [Tools]: [world i] is the outside
    world during the [i]-th turn. *)
Definition processAllMonitors_with (world : nat -> World) (rt : Runtime)
    (clock : nat -> Z) (now : Z) (s : Store) : Counters * Store :=
  processAllMonitors (fun i c => invoke_and_parse (world i) rt c) clock now s.

End Scheduler.

(* ===================================================================== *)
(** ** The specification's wording, and sample data *)
(* ===================================================================== *)

Module Spec.
Import Js Tools Scheduler.

(** [seen previous l]: some listing of [previous] carries the url of [l]. *)
Definition seen (previous : list Listing) (l : Listing) : bool :=
  existsb (fun p => same_value_zero (url l) (url p)) previous.

(** The diff as the specification words it: the urls of [previous] that
    are not the empty string form the set, and a listing is new when its
    url is empty or not in that set. *)
Definition findNew_as_specified (current : list Listing)
    (previous : option (list Listing)) : list Listing :=
  match previous with
  | None | Some [] => current
  | Some prev =>
      let known :=
        List.filter (fun u => negb (same_value_zero u (str EmptyString))) (map url prev) in
      List.filter
        (fun l => same_value_zero (url l) (str EmptyString)
                  || negb (existsb (same_value_zero (url l)) known))
        current
  end.

(** The eligibility thresholds, in hours and in milliseconds: a quarter of
    an hour for [realtime], 24 hours for [daily], 168 hours for [weekly],
    and 24 hours for any other or missing frequency. *)
Definition threshold_hours (frequency : option string) : Q :=
  match frequency with
  | Some f =>
      if String.eqb f "realtime" then (1 # 4)%Q
      else if String.eqb f "weekly" then inject_Z 168
      else inject_Z 24
  | None => inject_Z 24
  end.

Definition threshold_ms (frequency : option string) : Z :=
  match frequency with
  | Some f =>
      if String.eqb f "realtime" then 900000
      else if String.eqb f "weekly" then 604800000
      else 86400000
  | None => 86400000
  end.

(** Pattern extraction as the specification words it: every position
    beyond a token list is filled with the one placeholder "Not specified". *)
Definition padded (tokens : list string) (i : nat) : value :=
  str (default "Not specified" (tokens !! i)).

Definition pattern_listing_as_specified
    (prices addresses bedrooms bathrooms sqfts : list string) (source : string) (i : nat)
  : Listing :=
  {| title := title (pattern_listing prices addresses bedrooms bathrooms sqfts source i);
     price := padded prices i;
     address := padded addresses i;
     details := {| bedrooms := padded bedrooms i;
                   bathrooms := padded bathrooms i;
                   squareFeet := padded sqfts i |};
     description :=
       description (pattern_listing prices addresses bedrooms bathrooms sqfts source i);
     url := str EmptyString;
     source := str (str_or source "real-estate-site" +:+ " (pattern extraction)");
     imageUrl := Undefined;
     listingAgent := Undefined;
     listingStatus := Undefined |}.

(** Model extraction as the specification words it (with the amendments of
    C9).  A logical field is read from an ordered list of synonym keys, the
    first truthy one winning, with a placeholder when none is. *)
Definition first_of (item : json) (keys : list string) (placeholder : string) : value :=
  fold_right (fun k rest => or_else (get item k) rest) (str placeholder) keys.

Definition tagged_source (source tier : string) : value :=
  str (str_or source "real-estate-site" +:+ " (" +:+ tier +:+ " extraction)").

Definition model_listing_as_specified (source tier : string) (item : json) : Listing :=
  {| title := first_of item ["title"; "address"] "Property Listing";
     price := first_of item ["price"] "Price not specified";
     address := first_of item ["address"] "Address not specified";
     details :=
       {| bedrooms := first_of item ["bedrooms"; "beds"] "Not specified";
          bathrooms := first_of item ["bathrooms"; "baths"] "Not specified";
          squareFeet := first_of item ["squareFeet"; "sqft"; "area"] "Not specified" |};
     description := first_of item ["description"] EmptyString;
     url := first_of item ["url"; "link"] EmptyString;
     source := tagged_source source tier;
     imageUrl := Undefined;
     listingAgent := Undefined;
     listingStatus := Undefined |}.

(** The JSON text looked for in a reply: the body of the first fenced block
    (the whole block when the body is empty), else the bare array opening. *)
Definition json_candidate (responseText : string) : option string :=
  match match_fenced responseText with
  | Some m =>
      Some (match group1 m with
            | Some body => str_or body (whole m)
            | None => whole m
            end)
  | None =>
      match match_bare responseText with
      | Some m => Some (whole m)
      | None => None
      end
  end.

(** A text that opens an array and does not close it gets a closing bracket. *)
Definition close_array (jsonText : string) : string :=
  if startsWith jsonText "[" && negb (endsWith jsonText "]")
  then jsonText +:+ "]" else jsonText.

Definition is_null (item : json) : bool :=
  match item with
  | JNull => true
  | _ => false
  end.

Definition model_response_as_specified (rt : Runtime)
    (responseText source tier : string) : option ExtractionResult :=
  match json_candidate responseText with
  | None => None
  | Some jsonText =>
      match JSON_parse rt (close_array jsonText) with
      | Throw _ => None
      | Ok parsed =>
          let items := match parsed with JArr l => l | _ => [parsed] end in
          if existsb is_null items then None
          else Some {| count := len items;
                       listings := map (model_listing_as_specified source tier) items;
                       note := Some ("Results extracted using Puppeteer and " +:+ tier
                                     +:+ " processing");
                       error := None |}
      end
  end.

(** The rescheduling periods, in milliseconds: 15 minutes for [realtime],
    one day for [daily], seven days for [weekly], one day otherwise. *)
Definition period_ms (frequency : option string) : Z :=
  match frequency with
  | Some f =>
      if String.eqb f "realtime" then 15 * 60 * 1000
      else if String.eqb f "weekly" then 7 * 86400000
      else 86400000
  | None => 86400000
  end.

(** Reading the sweep log. *)
Definition entry_id (e : LogEntry) : string :=
  match e with
  | NotFound monitorId | Skipping monitorId | FoundNew monitorId _
  | NoNew monitorId | ErrorProcessing monitorId _ => monitorId
  end.

Definition polled (e : LogEntry) : bool :=
  match e with
  | FoundNew _ _ | NoNew _ => true
  | _ => false
  end.

Definition found_new (e : LogEntry) : bool :=
  match e with
  | FoundNew _ _ => true
  | _ => false
  end.

(** What happens to monitor [monitorId] on turn [i], given the store
    entries at that moment: it is missing, or not due, or its search
    throws, or it is polled, with or without new listings. *)
Definition outcome (search : nat -> Criteria.t -> result ExtractionResult) (now : Z)
    (i : nat) (entries : gmap string MonitorConfig.t) (monitorId : string) : LogEntry :=
  match entries !! monitorId with
  | None => NotFound monitorId
  | Some monitorConfig =>
      if shouldRunMonitor monitorConfig now then
        match search i (search_args monitorConfig) with
        | Throw message => ErrorProcessing monitorId message
        | Ok current =>
            let previous := match MonitorConfig.lastResults monitorConfig with
                            | Some r => listings r
                            | None => []
                            end in
            match findNewListings (listings current) (Some previous) with
            | [] => NoNew monitorId
            | newListings => FoundNew monitorId newListings
            end
        end
      else Skipping monitorId
  end.

Definition tally (f : LogEntry -> bool) (l : list LogEntry) : Z :=
  Z.of_nat (length (List.filter f l)).

(** The invariant of an extraction result. *)
Definition count_matches (r : ExtractionResult) : Prop := count r = len (listings r).

(** Every place where the pipeline builds an extraction result: the
    mapping of tier 1 (either branch), model extraction, pattern extraction
    and its [catch] object, the simple scraping fallback (either branch),
    the object built when both fallbacks throw, what the two drivers
    return, and all of these as a caller reads them back from JSON. *)
Inductive Produced : ExtractionResult -> Prop :=
| by_actor_mapping (items : list json) (source : string) :
    Produced (processRealEstateListings items source)
| by_model (rt : Runtime) (responseText source modelUsed : string) (r : ExtractionResult) :
    processLLMResponse rt responseText source modelUsed = Some r -> Produced r
| by_patterns (rt : Runtime) (content source : string) :
    Produced (processDocumentWithPatterns rt content source)
| by_pattern_catch (message : string) :
    Produced (patternFailure message)
| by_simple_scraping (w : World) (c : Criteria.t) (r : ExtractionResult) :
    snd (simpleScrapingFallback w c) = Ok r -> Produced r
| by_both_failed (original fallback : string) :
    Produced (bothFailed original fallback)
| by_fallback (w : World) (rt : Runtime) (c : Criteria.t) (r : ExtractionResult) :
    snd (fallbackToPuppeteerWebBaseLoader w rt c) = Ok r -> Produced r
| by_func (w : World) (rt : Runtime) (c : Criteria.t) (r : ExtractionResult) :
    snd (func w rt c) = Ok r -> Produced r
| by_reparse (r : ExtractionResult) :
    Produced r -> Produced (reparse r).

(** [m] completes normally, with a value satisfying [P]. *)
Definition returns {A} (P : A -> Prop) (m : Run A) : Prop :=
  match snd m with
  | Ok a => P a
  | Throw _ => False
  end.

(** If [m] completes normally, its value satisfies [P]. *)
Definition if_returns {A} (P : A -> Prop) (m : Run A) : Prop :=
  match snd m with
  | Ok a => P a
  | Throw _ => True
  end.

(** Every collaborator call made by [m] satisfies [Q]. *)
Definition emits_only {A} (Q : Event -> Prop) (m : Run A) : Prop :=
  Forall Q (fst m).

Definition not_actor_call (ev : Event) : Prop :=
  match ev with
  | EvActorCall _ => False
  | _ => True
  end.

End Spec.

Module Samples.
Import Js Tools Scheduler.

(** A listing produced by pattern extraction from a page with one price. *)
Definition blank_url_listing : Listing :=
  pattern_listing ["$500,000"] [] [] [] [] "zillow" 0.

(** A page text with one price and nothing else the patterns pick up. *)
Definition one_price_page : string := "Listed at $500,000".

(** A page text with three prices and five street addresses, no bedroom,
    bathroom or area token. *)
Definition three_price_page : string :=
  "$410,000; $520,000; $630,000; 12 Oak St; 34 Elm Ave; 56 Pine Rd; 78 Lake Dr; 90 Hill Ct".

(** Two model replies: a fenced array of one listing, and a fenced array
    holding [null]. *)
Definition fenced_reply : string :=
  "```json" +:+ NL +:+ "[{" +:+ DQ +:+ "address" +:+ DQ +:+ ": " +:+ DQ
  +:+ "12 Oak St" +:+ DQ +:+ ", " +:+ DQ +:+ "beds" +:+ DQ +:+ ": 3}]" +:+ NL +:+ "```".

Definition fenced_reply_json : string :=
  "[{" +:+ DQ +:+ "address" +:+ DQ +:+ ": " +:+ DQ
  +:+ "12 Oak St" +:+ DQ +:+ ", " +:+ DQ +:+ "beds" +:+ DQ +:+ ": 3}]".

Definition null_reply : string := "```json" +:+ NL +:+ "[null]" +:+ NL +:+ "```".

(** The runtime on the sample texts: what the five patterns match in the
    two pages, and what [JSON.parse] makes of the two replies.  On any
    other text it answers as on a text with no match and no JSON in it. *)
Definition sample_runtime : Runtime :=
  {| JSON_parse := fun text =>
       if String.eqb text fenced_reply_json
       then Ok (JArr [JObj [("address", JStr "12 Oak St"); ("beds", JNum (inject_Z 3))]])
       else if String.eqb text "[null]" then Ok (JArr [JNull])
       else Throw "Unexpected token";
     matchAll_price := fun content =>
       if String.eqb content one_price_page then ["$500,000"]
       else if String.eqb content three_price_page
            then ["$410,000"; "$520,000"; "$630,000"]
       else [];
     matchAll_address := fun content =>
       if String.eqb content three_price_page
       then ["12 Oak St"; "34 Elm Ave"; "56 Pine Rd"; "78 Lake Dr"; "90 Hill Ct"]
       else [];
     matchAll_bedroom := fun _ => [];
     matchAll_bathroom := fun _ => [];
     matchAll_sqft := fun _ => [] |}.

(** The search of the usage example: houses in Seattle on Zillow. *)
Definition seattle : Criteria.t :=
  {| Criteria.location := "Seattle, WA";
     Criteria.minPrice := Some 700000;
     Criteria.maxPrice := Some 1200000;
     Criteria.propertyType := "house";
     Criteria.bedrooms := Some 3;
     Criteria.bathrooms := Some 2;
     Criteria.maxResults := 5;
     Criteria.source := "zillow";
     Criteria.forceFallback := false |}.

Definition seattle_forced : Criteria.t :=
  {| Criteria.location := "Seattle, WA";
     Criteria.minPrice := Some 700000;
     Criteria.maxPrice := Some 1200000;
     Criteria.propertyType := "house";
     Criteria.bedrooms := Some 3;
     Criteria.bathrooms := Some 2;
     Criteria.maxResults := 5;
     Criteria.source := "zillow";
     Criteria.forceFallback := true |}.

Definition render_error : string := "Navigation timeout of 60000 ms exceeded".
Definition http_error : string := "Request failed with status code 403".

(** A world in which every collaborator fails. *)
Definition failing_world : World :=
  {| env_APIFY_TOKEN := true;
     Actor_call := fun _ _ => Throw "Actor run did not succeed";
     Actor_charge := fun _ => None;
     loader_load := fun _ => Throw render_error;
     model_invoke := fun _ _ => Throw "Connection error";
     axios_get := fun _ => Throw http_error |}.

(** A world in which the actor returns two items. *)
Definition two_items : list json :=
  [ JObj [("address", JStr "12 Oak St"); ("price", JNum (inject_Z 750000));
          ("detailUrl", JStr "https://www.zillow.com/homedetails/1")];
    JObj [("address", JStr "34 Elm Ave"); ("price", JNum (inject_Z 910000));
          ("detailUrl", JStr "https://www.zillow.com/homedetails/2")] ].

Definition zillow_world : World :=
  {| env_APIFY_TOKEN := true;
     Actor_call := fun _ _ => Ok two_items;
     Actor_charge := fun _ => None;
     loader_load := fun _ => Throw render_error;
     model_invoke := fun _ _ => Throw "Connection error";
     axios_get := fun _ => Throw http_error |}.

(** A world in which the page loads and the model answers with the fenced
    reply. *)
Definition model_world : World :=
  {| env_APIFY_TOKEN := true;
     Actor_call := fun _ _ => Throw "Actor run did not succeed";
     Actor_charge := fun _ => None;
     loader_load := fun _ => Ok [one_price_page];
     model_invoke := fun _ _ => Ok fenced_reply;
     axios_get := fun _ => Throw http_error |}.

(** The same, the model answering with the array that holds [null]. *)
Definition null_world : World :=
  {| env_APIFY_TOKEN := true;
     Actor_call := fun _ _ => Throw "Actor run did not succeed";
     Actor_charge := fun _ => None;
     loader_load := fun _ => Ok [one_price_page];
     model_invoke := fun _ _ => Ok null_reply;
     axios_get := fun _ => Throw http_error |}.

(** A daily monitor that was never checked, as the monitoring tool stores
    it. *)
Definition austin_monitor : MonitorConfig.t :=
  {| MonitorConfig.id := "monitor-1";
     MonitorConfig.createdAt := 1700000000000;
     MonitorConfig.criteria :=
       {| MonitorConfig.location := "Austin, TX";
          MonitorConfig.minPrice := Some 500000;
          MonitorConfig.maxPrice := Some 700000;
          MonitorConfig.propertyType := "house";
          MonitorConfig.bedrooms := Some 2;
          MonitorConfig.bathrooms := None |};
     MonitorConfig.frequency := Some "daily";
     MonitorConfig.notificationEmail := None;
     MonitorConfig.lastChecked := None;
     MonitorConfig.lastResults := None;
     MonitorConfig.nextRun := None |}.

Definition one_monitor_store : Store :=
  {| monitors_list := Some ["monitor-1"];
     configs := {[ "monitor-1" := austin_monitor ]} |}.

(** The instant of the sweep, and the clock four seconds later, when the
    search has returned and the next run is computed. *)
Definition sweep_instant : Z := 1700000600000.
Definition later_clock (i : nat) : Z := 1700000604000.

(** A world in which the actor fails, the page loads with the given text
    and the model call fails: the listings come from pattern extraction. *)
Definition pattern_world (page : string) : World :=
  {| env_APIFY_TOKEN := true;
     Actor_call := fun _ _ => Throw "Actor run did not succeed";
     Actor_charge := fun _ => None;
     loader_load := fun _ => Ok [page];
     model_invoke := fun _ _ => Throw "Connection error";
     axios_get := fun _ => Throw http_error |}.

(** A second monitor, checked one hour before the sweep, and a store whose
    list names a missing monitor, the fresh monitor and this one. *)
Definition recent_monitor : MonitorConfig.t :=
  {| MonitorConfig.id := "monitor-2";
     MonitorConfig.createdAt := 1700000000000;
     MonitorConfig.criteria := MonitorConfig.criteria austin_monitor;
     MonitorConfig.frequency := Some "weekly";
     MonitorConfig.notificationEmail := Some "your@email.com";
     MonitorConfig.lastChecked := Some (sweep_instant - 3600000);
     MonitorConfig.lastResults := None;
     MonitorConfig.nextRun := None |}.

Definition three_id_store : Store :=
  {| monitors_list := Some ["monitor-0"; "monitor-1"; "monitor-2"];
     configs := {[ "monitor-1" := austin_monitor; "monitor-2" := recent_monitor ]} |}.

End Samples.


(* ===================================================================== *)
(** ** src/realEstateTools.js, continued: patterns and request URLs *)
(* ===================================================================== *)

Module Patterns.
Import Js Tools.

Definition is_digit (c : ascii) : bool :=
  let n := nat_of_ascii c in ((48 <=? n) && (n <=? 57))%nat.

(** The greedy [[0-9]{1,n}]: the digits taken and what follows. *)
Fixpoint digits_upto (n : nat) (s : string) : string * string :=
  match n, s with
  | S n', String c s' =>
      if is_digit c
      then let '(d, r) := digits_upto n' s' in (String c d, r)
      else (EmptyString, s)
  | _, _ => (EmptyString, s)
  end.

(** The greedy [[0-9]*]. *)
Fixpoint digits (s : string) : string * string :=
  match s with
  | String c s' =>
      if is_digit c then let '(d, r) := digits s' in (String c d, r)
      else (EmptyString, s)
  | EmptyString => (EmptyString, EmptyString)
  end.

(** The greedy [(,[0-9]{3})*]. *)
Fixpoint groups (s : string) : string * string :=
  match s with
  | String c0 (String c1 (String c2 (String c3 rest))) =>
      if Ascii.eqb c0 ","%char && is_digit c1 && is_digit c2 && is_digit c3
      then let '(g, r) := groups rest in
           (String c0 (String c1 (String c2 (String c3 g))), r)
      else (EmptyString, s)
  | _ => (EmptyString, s)
  end.

(** The greedy [(\.[0-9]+)?]. *)
Definition fraction (s : string) : string * string :=
  match s with
  | String "."%char s' =>
      let '(d, r) := digits s' in
      if String.eqb d EmptyString then (EmptyString, s) else (String "."%char d, r)
  | _ => (EmptyString, s)
  end.

(** The price pattern [/\$([0-9]{1,3}(,[0-9]{3})*(\.[0-9]+)?)/] anchored at
    the start of [s].  Nothing follows the optional parts, so the greedy
    choice at each of them is the match. *)
Definition price_at (s : string) : option string :=
  match s with
  | String "$"%char s1 =>
      let '(d, r1) := digits_upto 3 s1 in
      if String.eqb d EmptyString then None
      else
        let '(g, r2) := groups r1 in
        let '(f, _) := fraction r2 in
        Some ("$" +:+ d +:+ g +:+ f)
  | _ => None
  end.

(** [[...content.matchAll(pricePattern)].map(match => match[0])]: the
    matches from left to right, each search resuming where the previous
    match ended ([skip] counts the characters of a match still to pass). *)
Fixpoint matchAll_price_from (skip : nat) (content : string) : list string :=
  match content with
  | EmptyString => []
  | String _ rest =>
      match skip with
      | S k => matchAll_price_from k rest
      | O =>
          match price_at content with
          | Some m => m :: matchAll_price_from (String.length m - 1) rest
          | None => matchAll_price_from 0 rest
          end
      end
  end.

Definition matchAll_pricePattern (content : string) : list string :=
  matchAll_price_from 0 content.

(** [$element.text().match(pricePattern)]: the first match, if any. *)
Definition first_price (text : string) : option string :=
  head (matchAll_pricePattern text).

End Patterns.

Module Requests.
Import Js Tools.

(** The characters [encodeURIComponent] leaves as they are. *)
Definition is_unreserved (c : ascii) : bool :=
  let n := nat_of_ascii c in
  ((65 <=? n) && (n <=? 90) || (97 <=? n) && (n <=? 122) || (48 <=? n) && (n <=? 57)
   || (n =? 45) || (n =? 95) || (n =? 46) || (n =? 33) || (n =? 126)
   || (n =? 42) || (n =? 39) || (n =? 40) || (n =? 41))%nat.

Definition hex_digit (n : nat) : ascii :=
  if (n <? 10)%nat then ascii_of_nat (48 + n) else ascii_of_nat (55 + n).

Definition percent (byte : nat) : string :=
  String "%"%char (String (hex_digit (byte / 16)) (String (hex_digit (byte mod 16)) EmptyString)).

(** One code unit below 256: itself when unreserved, else the escapes of
    its UTF-8 bytes (one byte below 128, two bytes from 128 on). *)
Definition encode_unit (c : ascii) : string :=
  let n := nat_of_ascii c in
  if is_unreserved c then String c EmptyString
  else if (n <? 128)%nat then percent n
  else percent (192 + n / 64) +:+ percent (128 + n mod 64).

Fixpoint encodeURIComponent (s : string) : string :=
  match s with
  | EmptyString => EmptyString
  | String c s' => encode_unit c +:+ encodeURIComponent s'
  end.






End Requests.

(* ===================================================================== *)
(** ** src/realEstateTools.js, continued: monitorRealEstateListingsTool *)
(* ===================================================================== *)

Module Monitoring.
Import Js Tools Scheduler.

(** The arguments of [monitorRealEstateListingsTool.func], after the schema
    has filled in its defaults. *)
Module MonitorArgs.
Record t : Type := mk {
  monitorId : option string;
  location : string;
  minPrice : option Z;
  maxPrice : option Z;
  propertyType : string;
  bedrooms : option Z;
  bathrooms : option Z;
  frequency : string;
  notificationEmail : option string }.
End MonitorArgs.






End Monitoring.

(* ===================================================================== *)
(** ** main.js: the direct actions *)
(* ===================================================================== *)

Module Main.
Import Js Tools.

(** The object handed to [processRealEstateAction]; a key it does not have
    reads as [Undefined]. *)
Module Params.
Record t : Type := mk {
  monitorId : value;
  location : value;
  minPrice : value;
  maxPrice : value;
  propertyType : value;
  bedrooms : value;
  bathrooms : value;
  maxResults : value;
  source : value;
  forceFallback : value;
  frequency : value;
  notificationEmail : value }.
End Params.

(** The object given to [searchRealEstateListingsTool.invoke], before the
    schema has seen it. *)
Module RawArgs.
Record t : Type := mk {
  location : value;
  minPrice : value;
  maxPrice : value;
  propertyType : value;
  bedrooms : value;
  bathrooms : value;
  maxResults : value;
  source : value;
  forceFallback : value }.
End RawArgs.

(** The object given to [monitorRealEstateListingsTool.invoke]. *)
Module RawMonitorArgs.
Record t : Type := mk {
  monitorId : value;
  location : value;
  minPrice : value;
  maxPrice : value;
  propertyType : value;
  bedrooms : value;
  bathrooms : value;
  frequency : value;
  notificationEmail : value }.
End RawMonitorArgs.

(** What [processRealEstateAction] goes on to do. *)
Inductive Action : Type :=
| InvokeSearch (args : RawArgs.t)
| InvokeMonitor (args : RawMonitorArgs.t)
| CheckMonitorStatus (monitorId : value).

Definition processRealEstateAction (action : string) (params : Params.t) : result Action :=
  if String.eqb action "search" then
    Ok (InvokeSearch
          {| RawArgs.location := Params.location params;
             RawArgs.minPrice := Params.minPrice params;
             RawArgs.maxPrice := Params.maxPrice params;
             RawArgs.propertyType := Params.propertyType params;
             RawArgs.bedrooms := Params.bedrooms params;
             RawArgs.bathrooms := Params.bathrooms params;
             RawArgs.maxResults := or_else (Params.maxResults params) (J (JNum (inject_Z 10)));
             RawArgs.source := or_else (Params.source params) (str "any");
             RawArgs.forceFallback :=
               or_else (Params.forceFallback params) (J (JBool false)) |})
  else if String.eqb action "monitor" then
    Ok (InvokeMonitor
          {| RawMonitorArgs.monitorId := Params.monitorId params;
             RawMonitorArgs.location := Params.location params;
             RawMonitorArgs.minPrice := Params.minPrice params;
             RawMonitorArgs.maxPrice := Params.maxPrice params;
             RawMonitorArgs.propertyType := Params.propertyType params;
             RawMonitorArgs.bedrooms := Params.bedrooms params;
             RawMonitorArgs.bathrooms := Params.bathrooms params;
             RawMonitorArgs.frequency := or_else (Params.frequency params) (str "daily");
             RawMonitorArgs.notificationEmail := Params.notificationEmail params |})
  else if String.eqb action "check-monitor" then
    if truthy (Params.monitorId params)
    then Ok (CheckMonitorStatus (Params.monitorId params))
    else Throw "Monitor ID is required to check monitor status"
  else Throw ("Unknown real estate action: " +:+ action).

(** The object the script passes: the nine keys it took from the actor
    input ([Actor.getInput() || {}]), and no other. *)
Definition direct_params (input : json) : Params.t :=
  {| Params.monitorId := get input "monitorId";
     Params.location := get input "location";
     Params.minPrice := get input "minPrice";
     Params.maxPrice := get input "maxPrice";
     Params.propertyType := get input "propertyType";
     Params.bedrooms := get input "bedrooms";
     Params.bathrooms := get input "bathrooms";
     Params.maxResults := Undefined;
     Params.source := Undefined;
     Params.forceFallback := Undefined;
     Params.frequency := get input "frequency";
     Params.notificationEmail := get input "notificationEmail" |}.

(** [if (action && ['search', 'monitor', 'check-monitor'].includes(action))]:
    [None] when the script goes on to the agent instead. *)
Definition direct_action (input : json) : option (result Action) :=
  match get input "action" with
  | J (JStr action) =>
      if existsb (String.eqb action) ["search"; "monitor"; "check-monitor"]
      then Some (processRealEstateAction action (direct_params input))
      else None
  | _ => None
  end.

(** *** The schema of the search tool *)

(** [z.number().int()]: a number with no fractional part. *)
Definition as_int (v : value) : option Z :=
  match v with
  | J (JNum q) =>
      if Pos.eqb (Qden (Qred q)) 1 then Some (Qnum (Qred q)) else None
  | _ => None
  end.

(** [.optional()]: [undefined] passes as absent. *)
Definition optional_int (at_least : option Z) (v : value) : option (option Z) :=
  match v with
  | Undefined => Some None
  | _ =>
      match as_int v with
      | Some z =>
          match at_least with
          | Some low => if Z.leb low z then Some (Some z) else None
          | None => Some (Some z)
          end
      | None => None
      end
  end.

(** [z.enum(allowed).default(d)]. *)
Definition enum_default (allowed : list string) (d : string) (v : value) : option string :=
  match v with
  | Undefined => Some d
  | J (JStr s) => if existsb (String.eqb s) allowed then Some s else None
  | _ => None
  end.

(** The schema of [searchRealEstateListingsTool]: the arguments [func]
    receives, or [None] when the input is refused (the tool then throws
    before [func] runs). *)
Definition searchSchema (raw : RawArgs.t) : option Criteria.t :=
  match RawArgs.location raw with
  | J (JStr location) =>
      minPrice ← optional_int None (RawArgs.minPrice raw);
      maxPrice ← optional_int None (RawArgs.maxPrice raw);
      propertyType ← enum_default ["house"; "apartment"; "condo"; "townhouse"; "land"; "any"]
                       "any" (RawArgs.propertyType raw);
      bedrooms ← optional_int (Some 0) (RawArgs.bedrooms raw);
      bathrooms ← optional_int (Some 0) (RawArgs.bathrooms raw);
      maxResults ← match RawArgs.maxResults raw with
                   | Undefined => Some 10
                   | v => match as_int v with
                          | Some z => if Z.ltb 0 z then Some z else None
                          | None => None
                          end
                   end;
      source ← enum_default ["zillow"; "realtor"; "redfin"; "any"] "any" (RawArgs.source raw);
      forceFallback ← match RawArgs.forceFallback raw with
                      | Undefined => Some false
                      | J (JBool b) => Some b
                      | _ => None
                      end;
      Some {| Criteria.location := location;
              Criteria.minPrice := minPrice;
              Criteria.maxPrice := maxPrice;
              Criteria.propertyType := propertyType;
              Criteria.bedrooms := bedrooms;
              Criteria.bathrooms := bathrooms;
              Criteria.maxResults := maxResults;
              Criteria.source := source;
              Criteria.forceFallback := forceFallback |}
  | _ => None
  end.

End Main.

(* ===================================================================== *)
(** ** Vocabulary and sample data for the further properties *)
(* ===================================================================== *)

Module Further.
Import Js Tools Scheduler Spec Samples Patterns Requests Monitoring Main.

(** A value that is neither [undefined] nor [null] nor falsy. *)
Definition present (v : value) : Prop := truthy v = true.

(** A value that is truthy or the empty string. *)
Definition present_or_blank (v : value) : Prop :=
  truthy v = true \/ v = str EmptyString.

(** The world [w] with its charge sink replaced. *)
Definition with_charge (w : World) (sink : string -> option string) : World :=
  {| env_APIFY_TOKEN := env_APIFY_TOKEN w;
     Actor_call := Actor_call w;
     Actor_charge := sink;
     loader_load := loader_load w;
     model_invoke := model_invoke w;
     axios_get := axios_get w |}.

Definition is_charge (ev : Event) : Prop :=
  match ev with
  | EvCharge _ => True
  | _ => False
  end.

Definition actor_or_charge (ev : Event) : Prop :=
  match ev with
  | EvActorCall _ | EvCharge _ => True
  | _ => False
  end.

Definition not_http (ev : Event) : Prop :=
  match ev with
  | EvHttpGet => False
  | _ => True
  end.

(** A url that is a JSON primitive: it compares by value. *)
Definition by_value (v : value) : bool :=
  match v with
  | J (JArr _) | J (JObj _) => false
  | _ => true
  end.

(** The characters of a string. *)
Fixpoint chars (s : string) : list ascii :=
  match s with
  | EmptyString => []
  | String c s' => c :: chars s'
  end.

Definition url_safe (c : ascii) : bool :=
  is_unreserved c || Ascii.eqb c "%"%char.

Definition price_char (c : ascii) : bool :=
  is_digit c || Ascii.eqb c ","%char || Ascii.eqb c "."%char.

(** The identity of a monitor: everything a sweep must leave alone. *)
Definition same_identity (a b : MonitorConfig.t) : Prop :=
  MonitorConfig.id a = MonitorConfig.id b
  /\ MonitorConfig.createdAt a = MonitorConfig.createdAt b
  /\ MonitorConfig.criteria a = MonitorConfig.criteria b
  /\ MonitorConfig.frequency a = MonitorConfig.frequency b
  /\ MonitorConfig.notificationEmail a = MonitorConfig.notificationEmail b.

(** The turns of a sweep log that polled monitor [monitorId]. *)
Definition polled_as (monitorId : string) (e : LogEntry) : bool :=
  polled e && String.eqb (entry_id e) monitorId.

(** A model reply that is a well-formed JSON array with no fence around it. *)
Definition bare_reply : string :=
  "Here are the listings: [{" +:+ DQ +:+ "address" +:+ DQ +:+ ": " +:+ DQ
  +:+ "12 Oak St" +:+ DQ +:+ "}]".

(** An actor item with an address and zero bedrooms, nothing else. *)
Definition studio_item : json :=
  JObj [("address", JStr "12 Oak St"); ("beds", JNum (inject_Z 0))].

(** Each monitor was polled at most once so far, and one that was polled
    carries the instant of the sweep as its last check. *)
Definition polled_once (now : Z) (st : Sweep) : Prop :=
  forall monitorId,
    tally (polled_as monitorId) (log st) <= 1
    /\ (tally (polled_as monitorId) (log st) = 1 ->
        exists c, entries st !! monitorId = Some c
                  /\ MonitorConfig.lastChecked c = Some now).

(** The store entries of [st] are those of [s], up to the three fields a
    poll writes. *)
Definition same_monitors (s : Store) (st : Sweep) : Prop :=
  forall monitorId,
    match configs s !! monitorId with
    | Some original =>
        exists current, entries st !! monitorId = Some current
                        /\ same_identity current original
    | None => entries st !! monitorId = None
    end.

(** The input of the fallback test of the README: a direct search that
    asks for Zillow and for the forced fallback. *)
Definition fallback_test_input : json :=
  JObj [ ("action", JStr "search");
         ("location", JStr "Denver, CO");
         ("minPrice", JNum (inject_Z 400000));
         ("maxPrice", JNum (inject_Z 700000));
         ("propertyType", JStr "house");
         ("bedrooms", JNum (inject_Z 2));
         ("bathrooms", JNum (inject_Z 2));
         ("maxResults", JNum (inject_Z 5));
         ("source", JStr "zillow");
         ("forceFallback", JBool true) ].

Definition denver_any : Criteria.t :=
  {| Criteria.location := "Denver, CO";
     Criteria.minPrice := Some 400000;
     Criteria.maxPrice := Some 700000;
     Criteria.propertyType := "house";
     Criteria.bedrooms := Some 2;
     Criteria.bathrooms := Some 2;
     Criteria.maxResults := 10;
     Criteria.source := "any";
     Criteria.forceFallback := false |}.



(** The charges of a successful actor run that found [n] items, when every
    charge goes through: none for no item; otherwise one per started
    hundred of items, one more for a premium source, and one per item up to
    twenty. *)
Definition full_charges (n : Z) (source : string) : list Event :=
  if Z.ltb 0 n then
    (repeat (EvCharge "data-volume") (Z.to_nat ((n + 99) / 100))
     ++ (if String.eqb source "redfin" || String.eqb source "realtor"
         then [EvCharge "premium-source"] else [])
     ++ repeat (EvCharge "listing-found") (Z.to_nat (Z.min n 20)))%list
  else [].

Definition dollars (s : string) : nat :=
  length (List.filter (Ascii.eqb "$"%char) (chars s)).

(** A runtime whose price pattern is the one implemented in [Patterns]. *)
Definition with_price_pattern (rt : Runtime) : Runtime :=
  {| JSON_parse := JSON_parse rt;
     matchAll_price := matchAll_pricePattern;
     matchAll_address := matchAll_address rt;
     matchAll_bedroom := matchAll_bedroom rt;
     matchAll_bathroom := matchAll_bathroom rt;
     matchAll_sqft := matchAll_sqft rt |}.

End Further.
(* ===================================================================== *)
(** ** Properties *)
(* ===================================================================== *)

Import Js Tools Scheduler Spec Samples.

(** *** SameValueZero and sets *)

Lemma same_value_zero_sym (a b : value) :
  same_value_zero a b = same_value_zero b a.
Proof.
  destruct a as [| |[]], b as [| |[]]; simpl; trivial.
  - destruct b, b0; reflexivity.
  - apply eq_true_iff_eq. rewrite !Qeq_bool_iff. split; intros H; now symmetry.
  - apply String.eqb_sym.
Qed.

Lemma same_value_zero_trans (a b c : value) :
  same_value_zero a b = true -> same_value_zero b c = true ->
  same_value_zero a c = true.
Proof.
  destruct a as [| |[]], b as [| |[]]; simpl; try discriminate;
    destruct c as [| |[]]; simpl; try discriminate; trivial.
  - destruct b, b0, b1; simpl; congruence.
  - rewrite !Qeq_bool_iff. intros H1 H2. now rewrite H1.
  - intros H1 H2. apply String.eqb_eq in H1, H2. apply String.eqb_eq. congruence.
Qed.

Lemma same_value_zero_str (s : string) (v : value) :
  same_value_zero (str s) v = true <-> v = str s.
Proof.
  unfold str. destruct v as [| |[]]; simpl; split; try discriminate.
  - intros H. apply String.eqb_eq in H. now subst.
  - intros H. injection H as ->. apply String.eqb_refl.
Qed.

Lemma Set_has_app (s t : list value) (x : value) :
  Set_has (s ++ t) x = Set_has s x || Set_has t x.
Proof. unfold Set_has. apply existsb_app. Qed.

Lemma Set_has_add (s : list value) (v x : value) :
  Set_has (Set_add s v) x = Set_has s x || same_value_zero x v.
Proof.
  unfold Set_add. destruct (Set_has s v) eqn:Hv.
  - destruct (same_value_zero x v) eqn:Hx; [| now rewrite orb_false_r].
    rewrite orb_true_r. unfold Set_has in *.
    apply existsb_exists in Hv as (y & Hy & Hvy).
    apply existsb_exists. exists y. split; [exact Hy |].
    eapply same_value_zero_trans; eassumption.
  - rewrite Set_has_app. unfold Set_has at 2. simpl. now rewrite orb_false_r.
Qed.

Lemma Set_has_fold (vs s : list value) (x : value) :
  Set_has (fold_left Set_add vs s) x = Set_has s x || existsb (same_value_zero x) vs.
Proof.
  revert s. induction vs as [| v vs IH]; intros s; simpl.
  - now rewrite orb_false_r.
  - rewrite IH, Set_has_add. now rewrite orb_assoc.
Qed.

Lemma Set_has_new_Set (vs : list value) (x : value) :
  Set_has (new_Set vs) x = existsb (same_value_zero x) vs.
Proof. unfold new_Set. now rewrite Set_has_fold. Qed.

(** *** The novelty diff *)

Lemma filter_all {A} (f : A -> bool) (l : list A) :
  (forall x, In x l -> f x = true) -> List.filter f l = l.
Proof.
  induction l as [| a l IH]; simpl; intros H; [reflexivity |].
  rewrite (H a (or_introl eq_refl)). f_equal. apply IH. intros x Hx. apply H. now right.
Qed.

Lemma seen_map (previous : list Listing) (l : Listing) :
  existsb (same_value_zero (url l)) (map url previous) = seen previous l.
Proof. unfold seen. induction previous as [| p ps IH]; simpl; [reflexivity | now rewrite IH]. Qed.

Lemma findNewListings_filter (current : list Listing) (previous : option (list Listing)) :
  findNewListings current previous =
  List.filter (fun l => negb (seen (default [] previous) l)) current.
Proof.
  destruct previous as [[| p ps] |]; unfold findNewListings.
  - symmetry. now apply filter_all.
  - change (default [] (Some (p :: ps))) with (p :: ps).
    apply filter_ext. intros l. now rewrite Set_has_new_Set, seen_map.
  - symmetry. now apply filter_all.
Qed.

(** C1, as stated, fails: an empty-url listing of [current] is dropped when
    [previous] holds an empty-url listing, because the empty url is put in
    the set like any other. *)
Lemma findNewListings_drops_empty_url :
  url blank_url_listing = str EmptyString
  /\ findNewListings [blank_url_listing] (Some [blank_url_listing]) = []
  /\ findNew_as_specified [blank_url_listing] (Some [blank_url_listing])
     = [blank_url_listing].
Proof. repeat split. Qed.

(** C1 (amended): [findNewListings current previous] is [current] when
    [previous] is absent or empty; in every case it is the sublist of
    [current], in order, of the listings whose url is not the url of a
    listing of [previous], the empty url being a url like any other: an
    empty-url listing of [current] is kept exactly when no listing of
    [previous] has an empty url. *)
Theorem findNewListings_diff (current : list Listing) (previous : option (list Listing)) :
  let prev := default [] previous in
  findNewListings current previous = List.filter (fun l => negb (seen prev l)) current
  /\ (prev = [] -> findNewListings current previous = current)
  /\ (forall l, In l current -> url l = str EmptyString ->
        (In l (findNewListings current previous)
         <-> forall p, In p prev -> url p <> str EmptyString)).
Proof.
  intros prev. split; [apply findNewListings_filter |]. split.
  - intros Hprev. rewrite findNewListings_filter. fold prev. rewrite Hprev.
    now apply filter_all.
  - intros l Hl Hurl. rewrite findNewListings_filter. fold prev.
    rewrite filter_In. unfold seen. rewrite Hurl. split.
    + intros [_ Hseen] p Hp Hpu.
      apply negb_true_iff in Hseen.
      assert (existsb (fun p0 => same_value_zero (str EmptyString) (url p0)) prev = true)
        as Hex; [| congruence].
      apply existsb_exists. exists p. split; [exact Hp |].
      now apply same_value_zero_str.
    + intros Hnone. split; [exact Hl |].
      apply negb_true_iff. apply not_true_is_false. intros Hex.
      apply existsb_exists in Hex as (p & Hp & Hpu).
      apply same_value_zero_str in Hpu. now apply (Hnone p Hp).
Qed.

(** *** Eligibility *)

Lemma hoursSince_ge (n d : positive) (currentTime lastChecked : Z) :
  (Z.pos n # d <= hoursSince currentTime lastChecked)%Q
  <-> Z.pos n * 3600000 <= (currentTime - lastChecked) * Z.pos d.
Proof.
  unfold hoursSince, Qle, Qdiv, Qmult, Qinv, inject_Z. simpl.
  rewrite Z.mul_1_r. reflexivity.
Qed.

Lemma shouldRunMonitor_unfold (monitorConfig : MonitorConfig.t) (currentTime lastChecked : Z) :
  MonitorConfig.lastChecked monitorConfig = Some lastChecked ->
  shouldRunMonitor monitorConfig currentTime =
  Qle_bool (threshold_hours (MonitorConfig.frequency monitorConfig))
           (hoursSince currentTime lastChecked).
Proof.
  intros H. unfold shouldRunMonitor, threshold_hours. rewrite H.
  destruct (MonitorConfig.frequency monitorConfig) as [f |]; [| reflexivity].
  destruct (String.eqb f "realtime") eqn:E1; [reflexivity |].
  destruct (String.eqb f "daily") eqn:E2.
  - apply String.eqb_eq in E2. subst f. reflexivity.
  - destruct (String.eqb f "weekly"); reflexivity.
Qed.

Lemma threshold_hours_ms (frequency : option string) (currentTime lastChecked : Z) :
  (threshold_hours frequency <= hoursSince currentTime lastChecked)%Q
  <-> threshold_ms frequency <= currentTime - lastChecked.
Proof.
  unfold threshold_hours, threshold_ms.
  destruct frequency as [f |];
    [destruct (String.eqb f "realtime"); [| destruct (String.eqb f "weekly")] |];
    unfold inject_Z; rewrite hoursSince_ge; lia.
Qed.

(** C3: a monitor that was never checked runs; otherwise it runs exactly
    when the hours elapsed since [lastChecked] reach the threshold of its
    frequency: 0.25 for [realtime], 24 for [daily], 168 for [weekly], and 24
    for any other or missing frequency.  In milliseconds the thresholds
    are 900000, 86400000 and 604800000. *)
Theorem shouldRunMonitor_eligibility (monitorConfig : MonitorConfig.t) (now : Z) :
  match MonitorConfig.lastChecked monitorConfig with
  | None => shouldRunMonitor monitorConfig now = true
  | Some lastChecked =>
      let elapsed := hoursSince now lastChecked in
      let frequency := MonitorConfig.frequency monitorConfig in
      (shouldRunMonitor monitorConfig now = true
       <-> (threshold_hours frequency <= elapsed)%Q)
      /\ (shouldRunMonitor monitorConfig now = true
          <-> threshold_ms frequency <= now - lastChecked)
      /\ threshold_hours (Some "realtime") = (1 # 4)%Q
      /\ threshold_hours (Some "daily") = inject_Z 24
      /\ threshold_hours (Some "weekly") = inject_Z 168
      /\ (frequency <> Some "realtime" -> frequency <> Some "weekly" ->
          threshold_hours frequency = inject_Z 24)
  end.
Proof.
  destruct (MonitorConfig.lastChecked monitorConfig) as [lastChecked |] eqn:H.
  - cbv zeta. rewrite (shouldRunMonitor_unfold _ _ _ H).
    split; [apply Qle_bool_iff |].
    split; [etransitivity; [apply Qle_bool_iff | apply threshold_hours_ms] |].
    repeat split.
    intros H1 H2. unfold threshold_hours.
    destruct (MonitorConfig.frequency monitorConfig) as [f |]; [| reflexivity].
    destruct (String.eqb f "realtime") eqn:E1;
      [apply String.eqb_eq in E1; congruence |].
    destruct (String.eqb f "weekly") eqn:E2;
      [apply String.eqb_eq in E2; congruence | reflexivity].
  - unfold shouldRunMonitor. now rewrite H.
Qed.

(** *** Pattern extraction *)

Lemma maxEntries_nonneg (prices addresses bedrooms bathrooms sqfts : list string) :
  0 <= maxEntries prices addresses bedrooms bathrooms sqfts <= len prices.
Proof. unfold maxEntries, len. lia. Qed.

Lemma pattern_listings_length (rt : Runtime) (content source : string) :
  len (listings (processDocumentWithPatterns rt content source))
  = maxEntries (matchAll_price rt content) (matchAll_address rt content)
      (matchAll_bedroom rt content) (matchAll_bathroom rt content)
      (matchAll_sqft rt content).
Proof.
  unfold processDocumentWithPatterns, len. simpl.
  rewrite length_map, length_seq. apply Z2Nat.id. apply maxEntries_nonneg.
Qed.

Lemma lookup_map {A B} (f : A -> B) (l : list A) (i : nat) :
  map f l !! i = option_map f (l !! i).
Proof.
  revert i. induction l as [| a l IH]; intros [| i]; simpl; trivial.
Qed.

Lemma pattern_listings_lookup (rt : Runtime) (content source : string) (i : nat) :
  Z.of_nat i < maxEntries (matchAll_price rt content) (matchAll_address rt content)
                 (matchAll_bedroom rt content) (matchAll_bathroom rt content)
                 (matchAll_sqft rt content) ->
  listings (processDocumentWithPatterns rt content source) !! i
  = Some (pattern_listing (matchAll_price rt content) (matchAll_address rt content)
            (matchAll_bedroom rt content) (matchAll_bathroom rt content)
            (matchAll_sqft rt content) source i).
Proof.
  intros Hi. unfold processDocumentWithPatterns. simpl.
  set (n := maxEntries _ _ _ _ _) in *.
  rewrite lookup_map.
  assert (seq 0 (Z.to_nat n) !! i = Some i) as ->; [| reflexivity].
  apply lookup_seq. lia.
Qed.

Lemma pattern_listing_in (rt : Runtime) (content source : string) (l : Listing) :
  In l (listings (processDocumentWithPatterns rt content source)) ->
  exists i, l = pattern_listing (matchAll_price rt content) (matchAll_address rt content)
                  (matchAll_bedroom rt content) (matchAll_bathroom rt content)
                  (matchAll_sqft rt content) source i.
Proof.
  unfold processDocumentWithPatterns. simpl. intros H.
  apply in_map_iff in H as (i & <- & _). now exists i.
Qed.

(** C4, as stated, fails: beyond the address tokens the address is filled
    with "Address not specified", not with "Not specified". *)
Lemma pattern_address_placeholder :
  listings (processDocumentWithPatterns sample_runtime one_price_page "zillow")
  = [pattern_listing ["$500,000"] [] [] [] [] "zillow" 0]
  /\ address (pattern_listing ["$500,000"] [] [] [] [] "zillow" 0)
     = str "Address not specified"
  /\ address (pattern_listing_as_specified ["$500,000"] [] [] [] [] "zillow" 0)
     = str "Not specified".
Proof. repeat split. Qed.

(** C4 (amended): pattern extraction produces exactly N listings, N being
    the minimum of the price-match count and of the address, bedroom,
    bathroom and area match counts each raised to at least 10; listing [i]
    takes the [i]-th token of each list, a position beyond a list being
    filled with "Address not specified" for the address and with
    "Not specified" for bedrooms, bathrooms and square feet (the price is
    never beyond its list).  With 3 price tokens, 5 address tokens and no
    bedroom token there are exactly 3 listings, each with bedrooms
    "Not specified". *)
Theorem pattern_extraction_zips (rt : Runtime) (content source : string) :
  let prices := matchAll_price rt content in
  let addresses := matchAll_address rt content in
  let beds := matchAll_bedroom rt content in
  let baths := matchAll_bathroom rt content in
  let sqfts := matchAll_sqft rt content in
  let result := processDocumentWithPatterns rt content source in
  let N := Z.min (len prices)
             (Z.min (Z.max (len addresses) 10)
                (Z.min (Z.max (len beds) 10)
                   (Z.min (Z.max (len baths) 10) (Z.max (len sqfts) 10)))) in
  count result = N
  /\ len (listings result) = N
  /\ (forall i : nat, Z.of_nat i < N ->
        exists l p,
          listings result !! i = Some l
          /\ prices !! i = Some p
          /\ price l = str p
          /\ address l = str (default "Address not specified" (addresses !! i))
          /\ bedrooms (details l) = str (default "Not specified" (beds !! i))
          /\ bathrooms (details l) = str (default "Not specified" (baths !! i))
          /\ squareFeet (details l) = str (default "Not specified" (sqfts !! i))
          /\ Tools.source l
             = str (str_or source "real-estate-site" +:+ " (pattern extraction)"))
  /\ (length prices = 3%nat -> length addresses = 5%nat -> length beds = 0%nat ->
      length (listings result) = 3%nat
      /\ Forall (fun l => bedrooms (details l) = str "Not specified") (listings result)).
Proof.
  intros prices addresses beds baths sqfts result N.
  assert (len (listings result) = N) as Hlen by apply pattern_listings_length.
  split; [exact Hlen |]. split; [exact Hlen |]. split.
  - intros i Hi.
    assert (is_Some (prices !! i)) as [p Hp].
    { apply lookup_lt_is_Some. unfold N, len in Hi. lia. }
    eexists _, p. split; [now apply pattern_listings_lookup |].
    split; [exact Hp |]. fold prices. unfold pattern_listing, token_or. simpl.
    rewrite Hp. repeat split.
  - intros Hp Ha Hb. split.
    + unfold len in Hlen. unfold N, len in Hlen. rewrite Hp, Ha in Hlen. lia.
    + apply List.Forall_forall. intros l Hl.
      apply pattern_listing_in in Hl as (i & ->).
      unfold pattern_listing, token_or. simpl. fold beds.
      destruct beds; [reflexivity | discriminate].
Qed.

(** C10: every listing produced by pattern extraction has the empty string
    as its url, so the diff treats all of them alike: it reports all of
    them when no previous listing has an empty url (in particular on a
    first run), and none of them otherwise. *)
Theorem pattern_listings_have_no_identity (rt : Runtime) (content source : string)
    (previous : option (list Listing)) :
  let current := listings (processDocumentWithPatterns rt content source) in
  Forall (fun l => url l = str EmptyString) current
  /\ findNewListings current previous
     = if existsb (fun p => same_value_zero (str EmptyString) (url p)) (default [] previous)
       then [] else current.
Proof.
  intros current.
  assert (Forall (fun l => url l = str EmptyString) current) as Hurls.
  { apply List.Forall_forall. intros l Hl. apply pattern_listing_in in Hl as (i & ->).
    reflexivity. }
  split; [exact Hurls |].
  rewrite findNewListings_filter.
  destruct (existsb _ (default [] previous)) eqn:Hex.
  - induction Hurls as [| l ls Hl _ IH]; [reflexivity |].
    simpl. unfold seen at 1. rewrite Hl, Hex. exact IH.
  - apply filter_all. intros l Hl.
    rewrite List.Forall_forall in Hurls. unfold seen. rewrite (Hurls l Hl), Hex. reflexivity.
Qed.

(** *** Reasoning about awaited code *)

Lemma returns_weaken {A} (P : A -> Prop) (m : Run A) :
  returns P m -> if_returns P m.
Proof. unfold returns, if_returns. now destruct (snd m). Qed.

Lemma returns_ret {A} (P : A -> Prop) (a : A) : P a -> returns P (ret a).
Proof. trivial. Qed.

Lemma returns_bind {A B} (P : B -> Prop) (m : Run A) (f : A -> Run B) :
  returns (fun a => returns P (f a)) m -> returns P (bind m f).
Proof.
  unfold returns, bind. destruct m as [t [a | e]]; simpl; [| trivial].
  now destruct (f a).
Qed.

Lemma if_returns_bind {A B} (P : B -> Prop) (m : Run A) (f : A -> Run B) :
  (forall a, if_returns P (f a)) -> if_returns P (bind m f).
Proof.
  unfold if_returns, bind. intros H. destruct m as [t [a | e]]; simpl; [| trivial].
  specialize (H a). now destruct (f a).
Qed.

Lemma returns_try_catch {A} (P : A -> Prop) (m : Run A) (h : string -> Run A) :
  if_returns P m -> (forall e, returns P (h e)) -> returns P (try_catch m h).
Proof.
  unfold returns, if_returns, try_catch. intros Hm Hh.
  destruct m as [t [a | e]]; simpl in *; [exact Hm |].
  specialize (Hh e). now destruct (h e).
Qed.

Lemma if_returns_try_catch {A} (P : A -> Prop) (m : Run A) (h : string -> Run A) :
  if_returns P m -> (forall e, if_returns P (h e)) -> if_returns P (try_catch m h).
Proof.
  unfold if_returns, try_catch. intros Hm Hh.
  destruct m as [t [a | e]]; simpl in *; [exact Hm |].
  specialize (Hh e). now destruct (h e).
Qed.

Lemma emits_only_ret {A} (Q : Event -> Prop) (a : A) : emits_only Q (ret a).
Proof. constructor. Qed.

Lemma emits_only_throw {A} (Q : Event -> Prop) (e : string) :
  emits_only Q (throw (A := A) e).
Proof. constructor. Qed.

Lemma emits_only_call {A} (Q : Event -> Prop) (ev : Event) (o : result A) :
  Q ev -> emits_only Q (call ev o).
Proof. intros H. repeat constructor. exact H. Qed.

Lemma emits_only_bind {A B} (Q : Event -> Prop) (m : Run A) (f : A -> Run B) :
  emits_only Q m -> (forall a, emits_only Q (f a)) -> emits_only Q (bind m f).
Proof.
  unfold emits_only, bind. intros Hm Hf. destruct m as [t [a | e]]; simpl in *; [| exact Hm].
  specialize (Hf a). destruct (f a) as [t' r]. simpl in *.
  apply List.Forall_app. now split.
Qed.

Lemma emits_only_try_catch {A} (Q : Event -> Prop) (m : Run A) (h : string -> Run A) :
  emits_only Q m -> (forall e, emits_only Q (h e)) -> emits_only Q (try_catch m h).
Proof.
  unfold emits_only, try_catch. intros Hm Hh.
  destruct m as [t [a | e]]; simpl in *; [exact Hm |].
  specialize (Hh e). destruct (h e) as [t' r]. simpl in *.
  apply List.Forall_app. now split.
Qed.

(** *** The count invariant, tier by tier *)

Lemma failure_count (message : string) : count_matches (failure message).
Proof. reflexivity. Qed.

Lemma processRealEstateListings_count (items : list json) (source : string) :
  count_matches (processRealEstateListings items source).
Proof. unfold processRealEstateListings. now destruct (rmapM _ items). Qed.

Lemma processLLMResponse_count (rt : Runtime) (responseText source modelUsed : string)
    (r : ExtractionResult) :
  processLLMResponse rt responseText source modelUsed = Some r -> count_matches r.
Proof.
  unfold processLLMResponse.
  destruct (match match_fenced responseText with
            | Some m => Some m
            | None => match_bare responseText
            end) as [m |]; [| discriminate].
  cbv zeta.
  match goal with |- context [JSON_parse rt ?t] => destruct (JSON_parse rt t) as [parsed | e] end;
    simpl; [| discriminate].
  destruct (rmapM _ _) as [formatted | e]; simpl; [| discriminate].
  intros [= <-]. reflexivity.
Qed.

Lemma processDocumentWithPatterns_count (rt : Runtime) (content source : string) :
  count_matches (processDocumentWithPatterns rt content source).
Proof. reflexivity. Qed.

Lemma simpleScrapingFallback_returns (w : World) (c : Criteria.t) :
  returns count_matches (simpleScrapingFallback w c).
Proof.
  unfold simpleScrapingFallback. apply returns_try_catch.
  - unfold if_returns, bind, call. destruct (axios_get w c); simpl; [reflexivity | trivial].
  - intros e. apply returns_ret, failure_count.
Qed.

Lemma extractListingsWithLLM_returns (P : ExtractionResult -> Prop) (w : World)
    (rt : Runtime) (content criteria source : string) :
  (forall text r, processLLMResponse rt text source "OpenAI" = Some r -> P r) ->
  returns (fun o => forall r, o = Some r -> P r)
          (extractListingsWithLLM w rt content criteria source).
Proof.
  intros HP. unfold extractListingsWithLLM. apply returns_try_catch.
  - unfold if_returns, bind, call. destruct (model_invoke w _ _) as [response | e]; simpl;
      [| trivial].
    intros r. apply HP.
  - intros e. apply returns_ret. discriminate.
Qed.

(** Whatever holds of the results of model extraction, of pattern
    extraction and of the simple scraping fallback holds of what the
    fallback driver returns; and it does return. *)
Lemma fallback_returns_any (P : ExtractionResult -> Prop) (w : World) (rt : Runtime)
    (c : Criteria.t) :
  (forall text r,
      processLLMResponse rt text (Criteria.source c) "OpenAI" = Some r -> P r) ->
  (forall content, P (processDocumentWithPatterns rt content (Criteria.source c))) ->
  returns P (simpleScrapingFallback w c) ->
  returns P (fallbackToPuppeteerWebBaseLoader w rt c).
Proof.
  intros Hllm Hpat Hsimple.
  unfold fallbackToPuppeteerWebBaseLoader. apply returns_try_catch.
  - apply if_returns_bind. intros [| pageContent docs]; [exact I |].
    apply returns_weaken, returns_bind.
    pose proof (extractListingsWithLLM_returns P w rt pageContent (criteria_sentence c)
                  (Criteria.source c) Hllm) as H.
    unfold returns in *. destruct (snd (extractListingsWithLLM _ _ _ _ _)) as [[r |] | e];
      [| | exact H].
    + destruct (0 <? count r)%Z; simpl; [now apply H | apply Hpat].
    + apply Hpat.
  - intros original. unfold returns, try_catch in *.
    destruct (simpleScrapingFallback w c) as [t [r | e]]; simpl in *; [exact Hsimple |].
    contradiction.
Qed.

Lemma fallback_returns (w : World) (rt : Runtime) (c : Criteria.t) :
  returns count_matches (fallbackToPuppeteerWebBaseLoader w rt c).
Proof.
  apply fallback_returns_any.
  - intros text r. apply processLLMResponse_count.
  - intros content. apply processDocumentWithPatterns_count.
  - apply simpleScrapingFallback_returns.
Qed.

Lemma func_if_returns (w : World) (rt : Runtime) (c : Criteria.t) :
  if_returns count_matches (func w rt c).
Proof.
  unfold func. destruct (env_APIFY_TOKEN w); cbn [negb]; [| exact I].
  destruct (Criteria.forceFallback c); [apply returns_weaken, fallback_returns |].
  apply if_returns_try_catch.
  - apply if_returns_bind. intros items. apply if_returns_bind. intros _.
    apply processRealEstateListings_count.
  - intros e. apply if_returns_bind. intros _. apply returns_weaken, fallback_returns.
Qed.

(** With the token configured the tool does not throw, whatever the
    collaborators do. *)
Lemma func_returns (w : World) (rt : Runtime) (c : Criteria.t) :
  env_APIFY_TOKEN w = true -> returns count_matches (func w rt c).
Proof.
  intros Htoken. unfold func. rewrite Htoken. cbn [negb].
  destruct (Criteria.forceFallback c); [apply fallback_returns |].
  apply returns_try_catch.
  - apply if_returns_bind. intros items. apply if_returns_bind. intros _.
    apply processRealEstateListings_count.
  - intros e. apply returns_bind.
    assert (forall m : Run unit, returns (fun _ => True) (try_catch m (fun _ => ret tt))) as Hc.
    { intros [t [[] | e']]; exact I. }
    generalize (Hc (charge w "fallback-extraction")).
    unfold returns. destruct (snd (try_catch _ _)); [| trivial].
    intros _. apply fallback_returns.
Qed.

Lemma reparse_count (r : ExtractionResult) : count_matches r -> count_matches (reparse r).
Proof. unfold count_matches, reparse, len. simpl. now rewrite length_map. Qed.

(** C2: every extraction result built by any tier of the pipeline, error
    branches included, has [count] equal to the length of [listings]. *)
Theorem count_is_listings_length (r : ExtractionResult) :
  Produced r -> count r = Z.of_nat (length (listings r)).
Proof.
  induction 1 as [items source | rt text source modelUsed r H | rt content source
                  | message | w c r H | original fallback | w rt c r H | w rt c r H
                  | r _ IH].
  - apply processRealEstateListings_count.
  - eapply processLLMResponse_count, H.
  - reflexivity.
  - reflexivity.
  - pose proof (simpleScrapingFallback_returns w c) as Hr. unfold returns in Hr.
    now rewrite H in Hr.
  - reflexivity.
  - pose proof (fallback_returns w rt c) as Hr. unfold returns in Hr. now rewrite H in Hr.
  - pose proof (func_if_returns w rt c) as Hr. unfold if_returns in Hr. now rewrite H in Hr.
  - now apply reparse_count.
Qed.

(** The invariant on the result of the Seattle search, as read back by a
    caller, when the actor returns two items. *)
Lemma count_is_listings_length_witness :
  Produced (reparse (processRealEstateListings two_items "zillow"))
  /\ count (reparse (processRealEstateListings two_items "zillow"))
     = Z.of_nat (length (listings (reparse (processRealEstateListings two_items "zillow")))).
Proof.
  assert (Produced (reparse (processRealEstateListings two_items "zillow"))) as H.
  { apply by_reparse.
    apply (by_func zillow_world sample_runtime seattle). vm_compute. reflexivity. }
  split; [exact H |]. apply (count_is_listings_length _ H).
Defined.

(** *** The terminal failure *)

(** The simple scraping fallback catches its own errors. *)
Lemma simpleScrapingFallback_catches (w : World) (c : Criteria.t) (e : string) :
  axios_get w c = Throw e ->
  simpleScrapingFallback w c
  = ([EvHttpGet], Ok (failure ("Simple scraping fallback failed: " +:+ e))).
Proof.
  intros H. unfold simpleScrapingFallback, try_catch, bind, call. now rewrite H.
Qed.

(** When the page load and the HTTP request both throw, the result carries
    the message of the HTTP request alone. *)
Lemma fallback_all_fail (w : World) (rt : Runtime) (c : Criteria.t) (e2 e5 : string) :
  loader_load w c = Throw e2 ->
  axios_get w c = Throw e5 ->
  fallbackToPuppeteerWebBaseLoader w rt c
  = ([EvPageLoad; EvHttpGet], Ok (failure ("Simple scraping fallback failed: " +:+ e5))).
Proof.
  intros H2 H5. unfold fallbackToPuppeteerWebBaseLoader.
  rewrite (simpleScrapingFallback_catches _ _ _ H5).
  unfold try_catch, bind, call. now rewrite H2.
Qed.

Lemma processLLMResponse_no_error (rt : Runtime) (responseText source modelUsed : string)
    (r : ExtractionResult) :
  processLLMResponse rt responseText source modelUsed = Some r -> error r = None.
Proof.
  unfold processLLMResponse.
  destruct (match match_fenced responseText with
            | Some m => Some m
            | None => match_bare responseText
            end) as [m |]; [| discriminate].
  cbv zeta.
  match goal with |- context [JSON_parse rt ?t] => destruct (JSON_parse rt t) as [parsed | e] end;
    simpl; [| discriminate].
  destruct (rmapM _ _) as [formatted | e]; simpl; [| discriminate].
  intros [= <-]. reflexivity.
Qed.

(** The object built for the case where both fallbacks throw is never what
    the fallback returns: its [catch] around the simple scraping fallback
    is not reached. *)
Lemma fallback_never_reports_both (w : World) (rt : Runtime) (c : Criteria.t) :
  returns (fun r => forall original fallback, r <> bothFailed original fallback)
          (fallbackToPuppeteerWebBaseLoader w rt c).
Proof.
  set (P := fun r : ExtractionResult =>
              error r = None
              \/ exists e, error r = Some ("Simple scraping fallback failed: " +:+ e)).
  assert (returns P (fallbackToPuppeteerWebBaseLoader w rt c)) as H.
  { apply fallback_returns_any.
    - intros text r Hr. left. eapply processLLMResponse_no_error, Hr.
    - intros content. now left.
    - unfold simpleScrapingFallback. apply returns_try_catch.
      + unfold if_returns, bind, call. destruct (axios_get w c); simpl; [now left | trivial].
      + intros e. apply returns_ret. right. now exists e. }
  unfold returns in *. destruct (snd _) as [r | e]; [| exact H].
  intros original fallback ->. destruct H as [H | [e H]]; simpl in H; discriminate.
Qed.


Lemma func_all_fail (w : World) (rt : Runtime) (c : Criteria.t) (e2 e5 : string) :
  env_APIFY_TOKEN w = true ->
  loader_load w c = Throw e2 ->
  axios_get w c = Throw e5 ->
  (Criteria.forceFallback c = true
   \/ exists e1, Actor_call w (actorId_of (Criteria.source c)) c = Throw e1) ->
  snd (func w rt c) = Ok (failure ("Simple scraping fallback failed: " +:+ e5)).
Proof.
  intros Htoken H2 H5 H1. unfold func. rewrite Htoken. cbn [negb].
  rewrite (fallback_all_fail w rt c e2 e5 H2 H5).
  destruct (Criteria.forceFallback c); [reflexivity |].
  destruct H1 as [H1 | [e1 H1]]; [discriminate |].
  unfold try_catch at 1, bind at 1, call. rewrite H1.
  destruct (try_catch (charge w "fallback-extraction") _) as [t [[] | e]] eqn:Hc.
  - reflexivity.
  - unfold try_catch, charge, call in Hc.
    destruct (Actor_charge w "fallback-extraction"); discriminate.
Qed.

(** C5 at the failing input: the actor, the page load and the HTTP request
    all throw.  The tool returns, with [count] 0 and no listing, but the
    error text carries the message of the HTTP request only; the object
    that joins the page-load message and the HTTP message is not the one
    returned. *)
Theorem all_tiers_fail_error :
  func failing_world sample_runtime seattle
  = ([EvActorCall "maxcopell/zillow-scraper"; EvCharge "fallback-extraction";
      EvPageLoad; EvHttpGet],
     Ok {| count := 0;
           listings := [];
           note := None;
           error := Some "Simple scraping fallback failed: Request failed with status code 403" |})
  /\ bothFailed render_error http_error
     = {| count := 0;
          listings := [];
          note := None;
          error := Some ("Both Puppeteer and simple scraping failed. Original error: "
                         +:+ "Navigation timeout of 60000 ms exceeded"
                         +:+ ". Fallback error: Request failed with status code 403") |}.
Proof. split; vm_compute; reflexivity. Qed.

(** *** Forced fallback *)

Lemma charge_quiet (w : World) (eventName : string) :
  emits_only not_actor_call (charge w eventName).
Proof. unfold charge. now apply emits_only_call. Qed.

Lemma fallback_quiet (w : World) (rt : Runtime) (c : Criteria.t) :
  emits_only not_actor_call (fallbackToPuppeteerWebBaseLoader w rt c).
Proof.
  unfold fallbackToPuppeteerWebBaseLoader. apply emits_only_try_catch.
  - apply emits_only_bind; [now apply emits_only_call |].
    intros [| pageContent docs]; [apply emits_only_throw |].
    apply emits_only_bind.
    + unfold extractListingsWithLLM. apply emits_only_try_catch.
      * apply emits_only_bind; [now apply emits_only_call |].
        intros response. apply emits_only_ret.
      * intros e. apply emits_only_ret.
    + intros [r |]; [destruct (0 <? count r)%Z |]; apply emits_only_ret.
  - intros original. apply emits_only_try_catch.
    + unfold simpleScrapingFallback. apply emits_only_try_catch.
      * apply emits_only_bind; [now apply emits_only_call |].
        intros cards. apply emits_only_ret.
      * intros e. apply emits_only_ret.
    + intros fallback. apply emits_only_ret.
Qed.

(** Without the flag, and with the token configured, the actor is the
    first collaborator called. *)
Lemma func_calls_actor_first (w : World) (rt : Runtime) (c : Criteria.t) :
  env_APIFY_TOKEN w = true ->
  Criteria.forceFallback c = false ->
  head (fst (func w rt c)) = Some (EvActorCall (actorId_of (Criteria.source c))).
Proof.
  intros Htoken Hforce. unfold func. rewrite Htoken, Hforce. cbn [negb].
  unfold try_catch at 1, bind at 1, call.
  destruct (Actor_call w _ c) as [items | e].
  - destruct (charge_for_listings w items (Criteria.source c);;; _) as [t [r | e]];
      [reflexivity |].
    destruct (_ ;;; fallbackToPuppeteerWebBaseLoader w rt c) as [t' r]. reflexivity.
  - destruct (_ ;;; fallbackToPuppeteerWebBaseLoader w rt c) as [t r]. reflexivity.
Qed.

(** C6: with [forceFallback] set, the search makes no actor call: every
    collaborator call of the run is a page load, a model call or an HTTP
    request. *)
Theorem forceFallback_skips_actor (w : World) (rt : Runtime) (c : Criteria.t) :
  Criteria.forceFallback c = true ->
  Forall not_actor_call (fst (func w rt c))
  /\ func w rt c
     = (if env_APIFY_TOKEN w then fallbackToPuppeteerWebBaseLoader w rt c
        else throw "APIFY_TOKEN is required but not set in your environment variables").
Proof.
  intros Hforce. unfold func. rewrite Hforce.
  destruct (env_APIFY_TOKEN w); cbn [negb].
  - split; [apply fallback_quiet | reflexivity].
  - split; [constructor | reflexivity].
Qed.

(** The forced Seattle search in a world whose actor would have answered. *)
Lemma forceFallback_skips_actor_witness :
  Criteria.forceFallback seattle_forced = true
  /\ Forall not_actor_call (fst (func zillow_world sample_runtime seattle_forced)).
Proof.
  split; [reflexivity |].
  apply (proj1 (forceFallback_skips_actor zillow_world sample_runtime seattle_forced
                  eq_refl)).
Defined.

(** *** Model extraction *)

Lemma model_listing_non_null (source modelUsed : string) (item : json) :
  is_null item = false ->
  model_listing item source modelUsed
  = Ok (model_listing_as_specified source modelUsed item).
Proof. destruct item; [discriminate | reflexivity ..]. Qed.

Lemma rmapM_model_listing (source modelUsed : string) (items : list json) :
  rmapM (fun item => model_listing item source modelUsed) items
  = if existsb is_null items then Throw (type_error_null "title")
    else Ok (map (model_listing_as_specified source modelUsed) items).
Proof.
  induction items as [| item items IH]; [reflexivity |].
  cbn [rmapM existsb map]. destruct (is_null item) eqn:Hnull.
  - destruct item; try discriminate. reflexivity.
  - rewrite (model_listing_non_null _ _ _ Hnull), IH. cbn [rbind orb].
    now destruct (existsb is_null items).
Qed.

Lemma match_bare_group1 (text : string) (m : Match) :
  match_bare text = Some m -> group1 m = None.
Proof.
  induction text as [| c text IH]; cbn [match_bare].
  - destruct (bare_at EmptyString); [intros [= <-]; reflexivity | discriminate].
  - destruct (bare_at (String c text)); [intros [= <-]; reflexivity | exact IH].
Qed.

Lemma lazy_key_colon (s m : string) :
  lazy_key s = Some m -> exists x, m = x +:+ ":".
Proof.
  revert m. induction s as [| c s IH]; intros m; cbn [lazy_key]; [discriminate |].
  destruct (take_ws s) as [w r].
  destruct (Ascii.eqb c "034" && String.prefix ":" r).
  - intros [= <-]. now exists (String c w).
  - destruct (lazy_key s) as [m' |]; [| discriminate].
    intros [= <-]. destruct (IH m' eq_refl) as [x ->]. now exists (String c x).
Qed.

Lemma append_assoc (a b c : string) : (a +:+ b) +:+ c = a +:+ (b +:+ c).
Proof.
  induction a as [| ch a IH]; [reflexivity |].
  change (String ch ((a +:+ b) +:+ c) = String ch (a +:+ (b +:+ c))). now f_equal.
Qed.

Lemma endsWith_colon (x : string) : endsWith (x +:+ ":") "]" = false.
Proof.
  induction x as [| c x IH]; [reflexivity |].
  change (String c x +:+ ":") with (String c (x +:+ ":")).
  cbn [endsWith]. rewrite IH, orb_false_r.
  apply String.eqb_neq. intros [= _ H]. destruct x; discriminate.
Qed.

(** The bare pattern stops at the colon after the first key, so what it
    matches always opens an array without closing it. *)
Lemma match_bare_unterminated (text : string) (m : Match) :
  match_bare text = Some m ->
  exists x, whole m = "[" +:+ x +:+ ":" /\ close_array (whole m) = whole m +:+ "]".
Proof.
  assert (forall s w, bare_at s = Some w -> exists x, w = "[" +:+ x +:+ ":") as Hat.
  { intros s w. unfold bare_at.
    destruct s as [| c0 s1]; [discriminate |].
    destruct (Ascii.eqb_spec c0 "["%char) as [-> | Hne].
    2:{ destruct c0 as [[] [] [] [] [] [] [] []]; try discriminate. now destruct Hne. }
    destruct (take_ws s1) as [w1 r1].
    destruct r1 as [| c1 s2]; [discriminate |].
    destruct (Ascii.eqb_spec c1 "{"%char) as [-> | Hne].
    2:{ destruct c1 as [[] [] [] [] [] [] [] []]; try discriminate. now destruct Hne. }
    destruct (take_ws s2) as [w2 r2].
    destruct r2 as [| c2 s3]; [discriminate |].
    destruct (Ascii.eqb_spec c2 "034"%char) as [-> | Hne].
    2:{ destruct c2 as [[] [] [] [] [] [] [] []]; try discriminate. now destruct Hne. }
    destruct (lazy_key s3) as [k |] eqn:Hk; [| discriminate].
    intros [= <-]. destruct (lazy_key_colon _ _ Hk) as [x ->].
    exists (w1 +:+ "{" +:+ w2 +:+ DQ +:+ x).
    now rewrite !append_assoc. }
  assert (forall w, (exists x, w = "[" +:+ x +:+ ":") ->
                    exists x, w = "[" +:+ x +:+ ":" /\ close_array w = w +:+ "]") as Hclose.
  { intros w [x ->]. exists x. split; [reflexivity |].
    unfold close_array, startsWith.
    change ("[" +:+ x +:+ ":") with (String "[" (x +:+ ":")) at 1 2.
    cbn [String.prefix endsWith]. rewrite endsWith_colon.
    destruct (Ascii.ascii_dec "[" "["); [| congruence].
    assert (String.eqb (String "[" (x +:+ ":")) "]" = false) as ->;
      [| destruct x; reflexivity].
    apply String.eqb_neq. now intros [= H]. }
  induction text as [| c text IH]; cbn [match_bare].
  - destruct (bare_at EmptyString) as [w |] eqn:Hw; [| discriminate].
    intros [= <-]. apply Hclose. eapply Hat, Hw.
  - destruct (bare_at (String c text)) as [w |] eqn:Hw; [| exact IH].
    intros [= <-]. apply Hclose. eapply Hat, Hw.
Qed.

Lemma processLLMResponse_refines (rt : Runtime) (responseText source modelUsed : string) :
  processLLMResponse rt responseText source modelUsed
  = model_response_as_specified rt responseText source modelUsed.
Proof.
  unfold processLLMResponse, model_response_as_specified, json_candidate.
  assert (forall jsonText,
            match
              rbind (JSON_parse rt (close_array jsonText)) (fun parsedListings =>
                rbind (rmapM (fun item => model_listing item source modelUsed)
                         match parsedListings with
                         | JArr items => items
                         | _ => [parsedListings]
                         end)
                  (fun formattedListings =>
                     Ok {| count := len formattedListings;
                           listings := formattedListings;
                           note := Some ("Results extracted using Puppeteer and "
                                         +:+ modelUsed +:+ " processing");
                           error := None |}))
            with
            | Ok r => Some r
            | Throw _ => None
            end
            = match JSON_parse rt (close_array jsonText) with
              | Throw _ => None
              | Ok parsed =>
                  let items := match parsed with JArr l => l | _ => [parsed] end in
                  if existsb is_null items then None
                  else Some {| count := len items;
                               listings := map (model_listing_as_specified source modelUsed) items;
                               note := Some ("Results extracted using Puppeteer and "
                                             +:+ modelUsed +:+ " processing");
                               error := None |}
              end) as Hparse.
  { intros jsonText. destruct (JSON_parse rt (close_array jsonText)) as [parsed | e];
      [| reflexivity].
    cbn [rbind]. cbv zeta. rewrite rmapM_model_listing.
    destruct (existsb is_null _); [reflexivity |].
    cbn [rbind]. unfold len. now rewrite length_map. }
  destruct (match_fenced responseText) as [m |].
  - apply Hparse.
  - destruct (match_bare responseText) as [m |] eqn:Hm; [| reflexivity].
    rewrite (match_bare_group1 _ _ Hm). apply Hparse.
Qed.

(** With a page loaded, the fallback driver returns the model's listings
    when there are some, and those of pattern extraction otherwise. *)
Lemma fallback_with_page (w : World) (rt : Runtime) (c : Criteria.t)
    (pageContent : string) (docs : list string) :
  loader_load w c = Ok (pageContent :: docs) ->
  snd (fallbackToPuppeteerWebBaseLoader w rt c)
  = Ok (let patterns := processDocumentWithPatterns rt pageContent (Criteria.source c) in
        match extractListingsWithLLM w rt pageContent (criteria_sentence c)
                (Criteria.source c) with
        | (_, Ok (Some r)) => if Z.ltb 0 (count r) then r else patterns
        | _ => patterns
        end).
Proof.
  intros Hload. unfold fallbackToPuppeteerWebBaseLoader.
  unfold try_catch at 1, bind at 1, call. rewrite Hload.
  pose proof (extractListingsWithLLM_returns (fun _ => True) w rt pageContent
                (criteria_sentence c) (Criteria.source c) (fun _ _ _ => I)) as Hr.
  unfold returns in Hr.
  destruct (extractListingsWithLLM w rt pageContent _ _) as [t [[r |] | e]];
    cbn in Hr; [| | contradiction].
  - unfold bind. cbn. now destruct (count r); cbn.
  - reflexivity.
Qed.

(** C9, as stated, fails twice: the tag names the model that was used
    (tier 3 passes "OpenAI"), not the word "model"; and a reply that parses
    to an array holding [null] is mapped to nothing although the parse
    succeeded with one element. *)
Lemma model_tag_names_the_model :
  snd (extractListingsWithLLM model_world sample_runtime one_price_page
         (criteria_sentence seattle) "zillow")
  = Ok (processLLMResponse sample_runtime fenced_reply "zillow" "OpenAI")
  /\ option_map (fun r => map Tools.source (listings r))
       (processLLMResponse sample_runtime fenced_reply "zillow" "OpenAI")
     = Some [str "zillow (OpenAI extraction)"]
  /\ tagged_source "zillow" "model" = str "zillow (model extraction)"
  /\ JSON_parse sample_runtime fenced_reply_json
     = Ok (JArr [JObj [("address", JStr "12 Oak St"); ("beds", JNum (inject_Z 3))]])
  /\ JSON_parse sample_runtime "[null]" = Ok (JArr [JNull])
  /\ processLLMResponse sample_runtime null_reply "zillow" "OpenAI" = None.
Proof. repeat split; vm_compute; reflexivity. Qed.

(** C9 (amended): the parser of the model reply looks for a fenced JSON
    block first, else for a bare array opening; it appends a closing
    bracket when the text opens an array without closing it (always so for
    the bare opening); when the text parses and no parsed element is
    [null], each element is mapped, the first truthy of the synonym keys
    winning ([title]|[address], [bedrooms]|[beds], [bathrooms]|[baths],
    [squareFeet]|[sqft]|[area], [url]|[link]), its source tagged
    "<source> (<model name> extraction)" with "real-estate-site" for an
    empty source, and the result is returned; when no text is found, the
    parse fails or an element is [null], the parser returns null.  Tier 3
    passes "OpenAI" as the model name and returns null when the model call
    throws; on null the fallback driver goes on to pattern extraction. *)
Theorem model_extraction_parser (rt : Runtime) (responseText source modelUsed : string) :
  processLLMResponse rt responseText source modelUsed
  = model_response_as_specified rt responseText source modelUsed
  /\ (forall m, match_fenced responseText = None -> match_bare responseText = Some m ->
        json_candidate responseText = Some (whole m)
        /\ close_array (whole m) = whole m +:+ "]")
  /\ (forall r, processLLMResponse rt responseText source modelUsed = Some r ->
        Forall (fun l => Tools.source l = tagged_source source modelUsed) (listings r)
        /\ count r = len (listings r) /\ error r = None)
  /\ (forall (w : World) (content criteria : string),
        snd (extractListingsWithLLM w rt content criteria source)
        = Ok (match model_invoke w criteria (String.substring 0 12000 content) with
              | Ok response => model_response_as_specified rt response source "OpenAI"
              | Throw _ => None
              end))
  /\ (forall (w : World) (c : Criteria.t) (pageContent : string) (docs : list string),
        loader_load w c = Ok (pageContent :: docs) ->
        snd (extractListingsWithLLM w rt pageContent (criteria_sentence c)
               (Criteria.source c)) = Ok None ->
        snd (fallbackToPuppeteerWebBaseLoader w rt c)
        = Ok (processDocumentWithPatterns rt pageContent (Criteria.source c))).
Proof.
  split; [apply processLLMResponse_refines |]. split; [| split; [| split]].
  - intros m Hf Hb. unfold json_candidate. rewrite Hf, Hb. split; [reflexivity |].
    now destruct (match_bare_unterminated _ _ Hb) as (x & _ & H).
  - intros r Hr. split; [| split].
    + rewrite processLLMResponse_refines in Hr. unfold model_response_as_specified in Hr.
      destruct (json_candidate responseText) as [jsonText |]; [| discriminate].
      destruct (JSON_parse rt _) as [parsed | e]; [| discriminate].
      cbv zeta in Hr. destruct (existsb is_null _); [discriminate |].
      injection Hr as <-. cbn [listings].
      apply List.Forall_forall. intros l Hl. apply in_map_iff in Hl as (item & <- & _).
      reflexivity.
    + eapply processLLMResponse_count, Hr.
    + eapply processLLMResponse_no_error, Hr.
  - intros w content criteria. unfold extractListingsWithLLM, try_catch, bind, call.
    destruct (model_invoke w criteria _) as [response | e]; cbn [snd ret];
      [| reflexivity].
    now rewrite processLLMResponse_refines.
  - intros w c pageContent docs Hload Hnone.
    rewrite (fallback_with_page w rt c pageContent docs Hload). cbv zeta.
    destruct (extractListingsWithLLM w rt pageContent _ _) as [t [[r |] | e]];
      cbn in Hnone; [discriminate | reflexivity | reflexivity].
Qed.

(** *** Rescheduling *)

Lemma getNextRunTime_period (clock : Z) (frequency : option string) :
  getNextRunTime clock frequency = clock + period_ms frequency.
Proof.
  unfold getNextRunTime, period_ms, minutes, days.
  destruct frequency as [f |]; [| lia].
  destruct (String.eqb f "realtime"); [lia |].
  destruct (String.eqb f "daily") eqn:E.
  - apply String.eqb_eq in E. subst f. cbn. lia.
  - destruct (String.eqb f "weekly"); lia.
Qed.

Lemma shouldRunMonitor_later (monitorConfig : MonitorConfig.t) (now later : Z) :
  shouldRunMonitor monitorConfig now = true -> now <= later ->
  shouldRunMonitor monitorConfig later = true.
Proof.
  intros Hrun Hle.
  destruct (MonitorConfig.lastChecked monitorConfig) as [lastChecked |] eqn:H.
  - rewrite (shouldRunMonitor_unfold _ now _ H) in Hrun.
    rewrite (shouldRunMonitor_unfold _ later _ H).
    apply Qle_bool_iff, threshold_hours_ms in Hrun.
    apply Qle_bool_iff, threshold_hours_ms. lia.
  - unfold shouldRunMonitor. now rewrite H.
Qed.

Section SweepFacts.

Variable search : nat -> Criteria.t -> result ExtractionResult.
Variable clock : nat -> Z.
Variable now : Z.

Lemma process_monitor_polled (i : nat) (st : Sweep) (monitorId : string)
    (monitorConfig : MonitorConfig.t) (r : ExtractionResult) :
  entries st !! monitorId = Some monitorConfig ->
  shouldRunMonitor monitorConfig now = true ->
  search i (search_args monitorConfig) = Ok r ->
  entries (process_monitor search clock now i st monitorId)
  = <[monitorId := rescheduled monitorConfig now (clock i) r]> (entries st)
  /\ processedCount (process_monitor search clock now i st monitorId)
     = processedCount st + 1.
Proof.
  intros Hget Hrun Hsearch. unfold process_monitor. rewrite Hget, Hrun, Hsearch.
  split; reflexivity.
Qed.

Lemma process_monitor_failed (i : nat) (st : Sweep) (monitorId : string)
    (monitorConfig : MonitorConfig.t) (e : string) :
  entries st !! monitorId = Some monitorConfig ->
  shouldRunMonitor monitorConfig now = true ->
  search i (search_args monitorConfig) = Throw e ->
  process_monitor search clock now i st monitorId
  = logged st (ErrorProcessing monitorId e).
Proof.
  intros Hget Hrun Hsearch. unfold process_monitor. now rewrite Hget, Hrun, Hsearch.
Qed.

End SweepFacts.

(** C7, as stated, fails: the next run is counted from the clock as read
    when the monitor is rescheduled, after the search has returned, not
    from the instant of the sweep.  Here the search takes four seconds. *)
Lemma nextRun_counts_from_reschedule :
  let after := snd (processAllMonitors_with (fun _ => zillow_world) sample_runtime
                      later_clock sweep_instant one_monitor_store) in
  MonitorConfig.lastChecked <$> (configs after !! "monitor-1") = Some (Some sweep_instant)
  /\ MonitorConfig.nextRun <$> (configs after !! "monitor-1")
     = Some (Some (sweep_instant + 4000 + 86400000))
  /\ sweep_instant + period_ms (Some "daily") = sweep_instant + 86400000.
Proof. repeat split. Qed.

(** C7 (amended): for a monitor that is due, if the search succeeds the
    stored configuration gets [lastChecked] = the instant of the sweep,
    [lastResults] = the search result, and [nextRun] = the clock as read at
    rescheduling (not before the instant of the sweep when the clock does
    not go back) plus 15 minutes for [realtime], one day for [daily], seven
    days for [weekly] and one day otherwise; if the search throws, no store
    entry changes, and the monitor is still due at any later instant. *)
Theorem reschedule_after_poll (search : nat -> Criteria.t -> result ExtractionResult)
    (clock : nat -> Z) (now : Z) (i : nat) (st : Sweep) (monitorId : string)
    (monitorConfig : MonitorConfig.t) :
  entries st !! monitorId = Some monitorConfig ->
  shouldRunMonitor monitorConfig now = true ->
  let st' := process_monitor search clock now i st monitorId in
  match search i (search_args monitorConfig) with
  | Ok r =>
      exists updated,
        entries st' !! monitorId = Some updated
        /\ MonitorConfig.lastChecked updated = Some now
        /\ MonitorConfig.lastResults updated = Some r
        /\ MonitorConfig.nextRun updated
           = Some (clock i + period_ms (MonitorConfig.frequency monitorConfig))
        /\ MonitorConfig.frequency updated = MonitorConfig.frequency monitorConfig
        /\ MonitorConfig.criteria updated = MonitorConfig.criteria monitorConfig
        /\ (forall other, other <> monitorId ->
              entries st' !! other = entries st !! other)
  | Throw _ =>
      entries st' = entries st
      /\ processedCount st' = processedCount st
      /\ updatedCount st' = updatedCount st
      /\ (forall later, now <= later -> shouldRunMonitor monitorConfig later = true)
  end.
Proof.
  intros Hget Hrun st'.
  destruct (search i (search_args monitorConfig)) as [r | e] eqn:Hsearch.
  - destruct (process_monitor_polled search clock now i st monitorId monitorConfig r
                Hget Hrun Hsearch) as [Hentries _].
    fold st' in Hentries.
    exists (rescheduled monitorConfig now (clock i) r). rewrite Hentries.
    split; [apply lookup_insert_eq |].
    repeat split.
    + cbn. now rewrite getNextRunTime_period.
    + intros other Hne. now apply lookup_insert_ne.
  - unfold st'. rewrite (process_monitor_failed search clock now i st monitorId
                           monitorConfig e Hget Hrun Hsearch).
    repeat split. intros later. now apply shouldRunMonitor_later.
Qed.

(** The first turn over the fresh daily monitor. *)
Lemma reschedule_after_poll_witness :
  let search := fun (_ : nat) c => invoke_and_parse zillow_world sample_runtime c in
  let st := start one_monitor_store in
  entries st !! "monitor-1" = Some austin_monitor
  /\ shouldRunMonitor austin_monitor sweep_instant = true
  /\ exists updated,
       entries (process_monitor search later_clock sweep_instant 0 st "monitor-1")
         !! "monitor-1" = Some updated
       /\ MonitorConfig.nextRun updated = Some (1700000604000 + 86400000).
Proof.
  assert (entries (start one_monitor_store) !! "monitor-1" = Some austin_monitor) as Hget
    by reflexivity.
  assert (shouldRunMonitor austin_monitor sweep_instant = true) as Hrun by reflexivity.
  split; [exact Hget |]. split; [exact Hrun |].
  destruct (reschedule_after_poll
              (fun (_ : nat) c => invoke_and_parse zillow_world sample_runtime c)
              later_clock sweep_instant 0 (start one_monitor_store) "monitor-1"
              austin_monitor Hget Hrun)
    as (updated & Hu & _ & _ & Hnext & _).
  exists updated. split; [exact Hu | exact Hnext].
Defined.

(** *** The sweep *)

Ltac turn_done :=
  cbn; repeat split;
  first [ lia | reflexivity | intros _; reflexivity
        | let H := fresh in intros H; discriminate H ].

Section SweepCounts.

Variable search : nat -> Criteria.t -> result ExtractionResult.
Variable clock : nat -> Z.
Variable now : Z.

Lemma tally_snoc (f : LogEntry -> bool) (l : list LogEntry) (e : LogEntry) :
  tally f (l ++ [e]) = tally f l + (if f e then 1 else 0).
Proof.
  unfold tally. rewrite List.filter_app, length_app. cbn [List.filter].
  destruct (f e); cbn [length]; lia.
Qed.

(** One turn: the log gets the outcome of the turn, the counters move with
    it, and the store entries change only when the monitor was polled. *)
Lemma process_monitor_step (i : nat) (st : Sweep) (monitorId : string) :
  let e := outcome search now i (entries st) monitorId in
  let st' := process_monitor search clock now i st monitorId in
  log st' = (log st ++ [e])%list
  /\ processedCount st' = processedCount st + (if polled e then 1 else 0)
  /\ updatedCount st' = updatedCount st + (if found_new e then 1 else 0)
  /\ (polled e = false -> entries st' = entries st).
Proof.
  unfold process_monitor, outcome.
  destruct (entries st !! monitorId) as [monitorConfig |]; [| turn_done].
  destruct (shouldRunMonitor monitorConfig now); cbn [negb]; [| turn_done].
  destruct (search i (search_args monitorConfig)) as [r | e]; [| turn_done].
  cbv zeta.
  destruct (findNewListings _ _) as [| l ls].
  - change (Z.ltb 0 (len [])) with false. turn_done.
  - change (Z.ltb 0 (len (l :: ls))) with true. turn_done.
Qed.

(** A turn counts as polled exactly when the monitor exists, is due and its
    search returns; it counts as updated when, besides, the diff against
    the stored results is not empty. *)
Lemma outcome_polled (i : nat) (entries : gmap string MonitorConfig.t) (monitorId : string) :
  polled (outcome search now i entries monitorId) = true
  <-> exists monitorConfig r,
        entries !! monitorId = Some monitorConfig
        /\ shouldRunMonitor monitorConfig now = true
        /\ search i (search_args monitorConfig) = Ok r.
Proof.
  unfold outcome. destruct (entries !! monitorId) as [c |].
  - destruct (shouldRunMonitor c now) eqn:Hrun.
    + destruct (search i (search_args c)) as [r | e] eqn:Hs.
      * cbv zeta. split; [intros _; now exists c, r |].
        intros _. now destruct (findNewListings _ _).
      * split; [discriminate |]. intros (c' & r & [= <-] & _ & H). congruence.
    + split; [discriminate |]. intros (c' & r & [= <-] & H & _). congruence.
  - split; [discriminate |]. intros (c' & r & H & _). discriminate.
Qed.

Lemma outcome_found_new (i : nat) (entries : gmap string MonitorConfig.t)
    (monitorId : string) :
  found_new (outcome search now i entries monitorId) = true
  <-> exists monitorConfig r,
        entries !! monitorId = Some monitorConfig
        /\ shouldRunMonitor monitorConfig now = true
        /\ search i (search_args monitorConfig) = Ok r
        /\ findNewListings (listings r)
             (Some (match MonitorConfig.lastResults monitorConfig with
                    | Some previous => listings previous
                    | None => []
                    end)) <> [].
Proof.
  unfold outcome. destruct (entries !! monitorId) as [c |].
  - destruct (shouldRunMonitor c now) eqn:Hrun.
    + destruct (search i (search_args c)) as [r | e] eqn:Hs.
      * cbv zeta. split.
        -- intros H. exists c, r. repeat split; trivial.
           intros Hnil. rewrite Hnil in H. discriminate.
        -- intros (c' & r' & [= <-] & _ & Hs' & Hne).
           rewrite Hs in Hs'. injection Hs' as <-.
           now destruct (findNewListings _ _).
      * split; [discriminate |]. intros (c' & r & [= <-] & _ & H & _). congruence.
    + split; [discriminate |]. intros (c' & r & [= <-] & H & _). congruence.
  - split; [discriminate |]. intros (c' & r & H & _). discriminate.
Qed.

Lemma sweep_from_app (i : nat) (l1 l2 : list string) (st : Sweep) :
  sweep_from search clock now i (l1 ++ l2) st
  = sweep_from search clock now (i + length l1) l2 (sweep_from search clock now i l1 st).
Proof.
  revert i st. induction l1 as [| a l1 IH]; intros i st; cbn [sweep_from app length].
  - now rewrite Nat.add_0_r.
  - rewrite IH. now rewrite Nat.add_succ_r.
Qed.

Lemma sweep_from_log (i : nat) (monitorsList : list string) (st : Sweep) :
  exists suffix,
    log (sweep_from search clock now i monitorsList st) = (log st ++ suffix)%list
    /\ map entry_id suffix = monitorsList.
Proof.
  revert i st. induction monitorsList as [| a l IH]; intros i st; cbn [sweep_from].
  - exists []. now rewrite app_nil_r.
  - destruct (IH (S i) (process_monitor search clock now i st a)) as (suffix & Hlog & Hids).
    destruct (process_monitor_step i st a) as (Hstep & _).
    exists (outcome search now i (entries st) a :: suffix). split.
    + rewrite Hlog, Hstep. now rewrite <- app_assoc.
    + cbn [map]. rewrite Hids. f_equal.
      unfold outcome. destruct (entries st !! a) as [c |]; [| reflexivity].
      destruct (shouldRunMonitor c now); [| reflexivity].
      destruct (search i (search_args c)); [| reflexivity].
      cbv zeta. now destruct (findNewListings _ _).
Qed.

Lemma sweep_from_counts (i : nat) (monitorsList : list string) (st : Sweep) :
  processedCount st = tally polled (log st) ->
  updatedCount st = tally found_new (log st) ->
  processedCount (sweep_from search clock now i monitorsList st)
  = tally polled (log (sweep_from search clock now i monitorsList st))
  /\ updatedCount (sweep_from search clock now i monitorsList st)
     = tally found_new (log (sweep_from search clock now i monitorsList st)).
Proof.
  revert i st. induction monitorsList as [| a l IH]; intros i st Hp Hu; cbn [sweep_from].
  - now split.
  - destruct (process_monitor_step i st a) as (Hlog & Hp' & Hu' & _).
    apply IH; rewrite Hlog, tally_snoc; lia.
Qed.

Lemma tally_found_le_polled (l : list LogEntry) :
  0 <= tally found_new l <= tally polled l /\ tally polled l <= len l.
Proof.
  unfold tally, len. induction l as [| e l IH]; cbn [List.filter length]; [lia |].
  destruct e; cbn [found_new polled length]; lia.
Qed.

Lemma take_snoc_lookup {A} (l : list A) (i : nat) (x : A) :
  l !! i = Some x -> take (S i) l = (take i l ++ [x])%list.
Proof.
  revert i. induction l as [| a l IH]; intros [| i]; cbn; try discriminate.
  - now intros [= ->].
  - intros H. now rewrite (IH i H).
Qed.

Lemma sweep_turn (i : nat) (monitorsList : list string) (monitorId : string) (st : Sweep) :
  monitorsList !! i = Some monitorId ->
  sweep_from search clock now 0 (take (S i) monitorsList) st
  = process_monitor search clock now i
      (sweep_from search clock now 0 (take i monitorsList) st) monitorId.
Proof.
  intros H. rewrite (take_snoc_lookup _ _ _ H), sweep_from_app.
  rewrite length_take_le; [reflexivity |].
  apply lookup_lt_Some in H. lia.
Qed.

Lemma sweep_log_lookup (i : nat) (monitorsList : list string) (monitorId : string)
    (s : Store) :
  monitorsList !! i = Some monitorId ->
  log (sweep_from search clock now 0 monitorsList (start s)) !! i
  = Some (outcome search now i
            (entries (sweep_from search clock now 0 (take i monitorsList) (start s)))
            monitorId).
Proof.
  intros H.
  rewrite <- (take_drop (S i) monitorsList) at 1.
  rewrite sweep_from_app.
  destruct (sweep_from_log (0 + length (take (S i) monitorsList))
              (drop (S i) monitorsList)
              (sweep_from search clock now 0 (take (S i) monitorsList) (start s)))
    as (suffix & -> & _).
  rewrite (sweep_turn _ _ _ _ H).
  destruct (process_monitor_step i
              (sweep_from search clock now 0 (take i monitorsList) (start s)) monitorId)
    as (-> & _).
  destruct (sweep_from_log 0 (take i monitorsList) (start s)) as (pre & Hpre & Hids).
  rewrite Hpre. cbn [start log app].
  assert (length pre = i) as Hlen.
  { rewrite <- (length_map entry_id), Hids, length_take_le; [reflexivity |].
    apply lookup_lt_Some in H. lia. }
  rewrite <- app_assoc. rewrite lookup_app_r; rewrite Hlen; [| lia].
  now rewrite Nat.sub_diag.
Qed.

End SweepCounts.

(** C8: the sweep visits every id of the monitors list, in order, one log
    line each; [processed] counts the turns in which the monitor existed,
    was due and its search returned, [updated] those among them whose diff
    was not empty, so [updated <= processed]; what a turn does is decided
    by the store entries at that moment alone; and a turn that does not
    poll (missing, not due, or search error) changes neither the store nor
    the counters, so the turns after it run as if it had not been there. *)
Theorem sweep_counts (search : nat -> Criteria.t -> result ExtractionResult)
    (clock : nat -> Z) (now : Z) (s : Store) :
  let monitorsList := default [] (monitors_list s) in
  let st := run_sweep search clock now s in
  let result := processAllMonitors search clock now s in
  let before (i : nat) := sweep_from search clock now 0 (take i monitorsList) (start s) in
  map entry_id (log st) = monitorsList
  /\ processed (fst result) = tally polled (log st)
  /\ updated (fst result) = tally found_new (log st)
  /\ 0 <= updated (fst result) <= processed (fst result)
  /\ processed (fst result) <= len monitorsList
  /\ monitors_list (snd result) = monitors_list s
  /\ configs (snd result) = entries st
  /\ (forall i monitorId, monitorsList !! i = Some monitorId ->
        log st !! i = Some (outcome search now i (entries (before i)) monitorId))
  /\ (forall i entries monitorId,
        polled (outcome search now i entries monitorId) = true
        <-> exists monitorConfig r,
              entries !! monitorId = Some monitorConfig
              /\ shouldRunMonitor monitorConfig now = true
              /\ search i (search_args monitorConfig) = Ok r)
  /\ (forall i entries monitorId,
        found_new (outcome search now i entries monitorId) = true
        <-> exists monitorConfig r,
              entries !! monitorId = Some monitorConfig
              /\ shouldRunMonitor monitorConfig now = true
              /\ search i (search_args monitorConfig) = Ok r
              /\ findNewListings (listings r)
                   (Some (match MonitorConfig.lastResults monitorConfig with
                          | Some previous => listings previous
                          | None => []
                          end)) <> [])
  /\ (forall i monitorId, monitorsList !! i = Some monitorId ->
        polled (outcome search now i (entries (before i)) monitorId) = false ->
        entries (before (S i)) = entries (before i)
        /\ processedCount (before (S i)) = processedCount (before i)
        /\ updatedCount (before (S i)) = updatedCount (before i)).
Proof.
  intros monitorsList st result before.
  assert (map entry_id (log st) = monitorsList) as Hids.
  { destruct (sweep_from_log search clock now 0 monitorsList (start s)) as (suffix & Hlog & H).
    unfold st, run_sweep. fold monitorsList. now rewrite Hlog. }
  destruct (sweep_from_counts search clock now 0 monitorsList (start s) eq_refl eq_refl)
    as [Hp Hu].
  assert (processed (fst result) = processedCount st
          /\ updated (fst result) = updatedCount st
          /\ monitors_list (snd result) = monitors_list s
          /\ configs (snd result) = entries st) as (Hrp & Hru & Hrl & Hrc).
  { unfold result, processAllMonitors, st, run_sweep. fold monitorsList.
    destruct monitorsList; repeat split. }
  pose proof (tally_found_le_polled (log st)) as Hle.
  assert (len (log st) = len monitorsList) as Hlen.
  { unfold len. now rewrite <- Hids, length_map. }
  change (processedCount st = tally polled (log st)) in Hp.
  change (updatedCount st = tally found_new (log st)) in Hu.
  split; [exact Hids |].
  split; [congruence |].
  split; [congruence |].
  split; [lia |].
  split; [lia |].
  split; [exact Hrl |].
  split; [exact Hrc |].
  split; [intros i monitorId H; apply sweep_log_lookup; exact H |].
  split; [intros i e monitorId; apply outcome_polled |].
  split; [intros i e monitorId; apply outcome_found_new |].
  intros i monitorId H Hnot. unfold before in *.
  rewrite (sweep_turn search clock now _ _ _ _ H).
  destruct (process_monitor_step search clock now i
              (sweep_from search clock now 0 (take i monitorsList) (start s)) monitorId)
    as (_ & Hp' & Hu' & He').
  split; [now apply He' |]. rewrite Hp', Hu', Hnot.
  destruct (outcome _ _ _ _ _); try discriminate; cbn; lia.
Qed.

(** *** Worked runs *)

Example three_prices_five_addresses :
  map (fun l => (price l, address l, bedrooms (details l)))
      (listings (processDocumentWithPatterns sample_runtime three_price_page "zillow"))
  = [ (str "$410,000", str "12 Oak St", str "Not specified");
      (str "$520,000", str "34 Elm Ave", str "Not specified");
      (str "$630,000", str "56 Pine Rd", str "Not specified") ].
Proof. reflexivity. Qed.

Example actor_returns_two_items :
  option_map (fun r => (count r, map Tools.source (listings r)))
    (match snd (func zillow_world sample_runtime seattle) with
     | Ok r => Some r
     | Throw _ => None
     end)
  = Some (2, [str "zillow"; str "zillow"]).
Proof. vm_compute. reflexivity. Qed.

Example sweep_three_ids :
  let st := run_sweep (fun _ c => invoke_and_parse zillow_world sample_runtime c)
              later_clock sweep_instant three_id_store in
  map entry_id (log st) = ["monitor-0"; "monitor-1"; "monitor-2"]
  /\ map polled (log st) = [false; true; false]
  /\ processedCount st = 1 /\ updatedCount st = 1.
Proof. vm_compute. repeat split. Qed.

(** Two sweeps a day apart over a monitor served by pattern extraction:
    the first reports its listing, the second reports none of the three
    other listings it finds. *)
Example second_poll_reports_nothing :
  let first := processAllMonitors_with (fun _ => pattern_world one_price_page)
                 sample_runtime later_clock sweep_instant one_monitor_store in
  let second := processAllMonitors_with (fun _ => pattern_world three_price_page)
                  sample_runtime later_clock (sweep_instant + 86400000) (snd first) in
  fst first = {| processed := 1; updated := 1 |}
  /\ fst second = {| processed := 1; updated := 0 |}.
Proof. vm_compute. split; reflexivity. Qed.

Example realtime_monitor_waits_a_quarter_hour :
  let checked := rescheduled austin_monitor sweep_instant sweep_instant
                   (failure "unused") in
  let realtime := MonitorConfig.mk "m" 0 (MonitorConfig.criteria austin_monitor)
                    (Some "realtime") None (Some sweep_instant) None None in
  shouldRunMonitor checked (sweep_instant + 86399999) = false
  /\ shouldRunMonitor checked (sweep_instant + 86400000) = true
  /\ shouldRunMonitor realtime (sweep_instant + 899999) = false
  /\ shouldRunMonitor realtime (sweep_instant + 900000) = true.
Proof. vm_compute. repeat split. Qed.

(* ===================================================================== *)
(** ** Further properties *)
(* ===================================================================== *)

Import Patterns Requests Monitoring Main Further.

(** *** The mapping of actor items *)

Lemma rmapM_actor_listing (source : string) (items : list json) :
  if existsb is_null items
  then rmapM (fun item => actor_listing item source) items = Throw (type_error_null "name")
  else exists ls,
         rmapM (fun item => actor_listing item source) items = Ok ls
         /\ Forall2 (fun item l => actor_listing item source = Ok l) items ls.
Proof.
  induction items as [| item items IH]; cbn [existsb rmapM].
  - exists []. split; [reflexivity | constructor].
  - destruct (is_null item) eqn:Hnull; cbn [orb].
    + destruct item; try discriminate. reflexivity.
    + assert (exists l, actor_listing item source = Ok l) as [l Hl].
      { destruct item; try discriminate; eexists; reflexivity. }
      rewrite Hl. cbn [rbind].
      destruct (existsb is_null items).
      * now rewrite IH.
      * destruct IH as (ls & -> & Hall). exists (l :: ls). split; [reflexivity |].
        now constructor.
Qed.

Lemma actor_listing_source (item : json) (source : string) (l : Listing) :
  actor_listing item source = Ok l -> Tools.source l = str source.
Proof. destruct item; cbn; try discriminate; now intros [= <-]. Qed.

(** X1: the tier-1 mapping is all or nothing.  When no item is [null] it
    returns one listing per item, in order, each tagged with the source,
    and no error; a single [null] item discards every listing and the
    result is the error object with [count] 0. *)
Theorem actor_batch_all_or_nothing (items : list json) (source : string) :
  let r := processRealEstateListings items source in
  if existsb is_null items
  then r = failure (type_error_null "name")
  else error r = None
       /\ count r = len items
       /\ Forall2 (fun item l => actor_listing item source = Ok l) items (listings r)
       /\ Forall (fun l => Tools.source l = str source) (listings r).
Proof.
  cbv zeta. unfold processRealEstateListings.
  pose proof (rmapM_actor_listing source items) as H.
  destruct (existsb is_null items).
  - now rewrite H.
  - destruct H as (ls & -> & Hall). cbn [error count listings].
    split; [reflexivity |]. split.
    + unfold len. f_equal. symmetry. eapply Forall2_length, Hall.
    + split; [exact Hall |].
      induction Hall as [| item l items ls Hl _ IH]; constructor; [| exact IH].
      eapply actor_listing_source, Hl.
Qed.

(** *** No missing field *)

Lemma or_else_present (a b : value) : present b -> present (or_else a b).
Proof. unfold present, or_else. now destruct (truthy a) eqn:Ha. Qed.

Lemma or_else_blank (a : value) : present_or_blank (or_else a (str EmptyString)).
Proof.
  unfold present_or_blank, or_else. destruct (truthy a) eqn:Ha; [now left | now right].
Qed.

Lemma or_else_blank2 (a b : value) :
  present_or_blank (or_else a (or_else b (str EmptyString))).
Proof.
  unfold present_or_blank, or_else.
  destruct (truthy a) eqn:Ha; [now left |].
  destruct (truthy b) eqn:Hb; [now left | now right].
Qed.

(** X2: a listing mapped from an actor item or from a parsed model item has
    no missing field: title, price, address, bedrooms, bathrooms and square
    feet are truthy values (the item's own or a placeholder), and
    description and url are truthy or the empty string. *)
Theorem mapped_fields_present (item : json) (source modelUsed : string) (l : Listing) :
  actor_listing item source = Ok l \/ model_listing item source modelUsed = Ok l ->
  present (title l) /\ present (price l) /\ present (address l)
  /\ present (bedrooms (details l)) /\ present (bathrooms (details l))
  /\ present (squareFeet (details l))
  /\ present_or_blank (description l) /\ present_or_blank (url l).
Proof.
  intros [H | H].
  - unfold actor_listing in H. destruct item; try discriminate; injection H as <-;
      cbn [title price address details bedrooms bathrooms squareFeet description url];
      repeat split;
      first [ apply or_else_blank | apply or_else_blank2
            | repeat apply or_else_present; reflexivity ].
  - unfold model_listing in H. destruct item; try discriminate; injection H as <-;
      cbn [title price address details bedrooms bathrooms squareFeet description url];
      repeat split;
      first [ apply or_else_blank | apply or_else_blank2
            | repeat apply or_else_present; reflexivity ].
Qed.

(** An item with zero bedrooms: the falsy 0 gives way to the placeholder. *)
Lemma mapped_fields_present_witness :
  exists l, actor_listing studio_item "zillow" = Ok l
            /\ present (title l) /\ present (bedrooms (details l)).
Proof.
  eexists. split; [reflexivity |].
  pose proof (mapped_fields_present studio_item "zillow" "OpenAI" _
                (or_introl eq_refl)) as (Ht & _ & _ & Hb & _).
  split; [exact Ht | exact Hb].
Defined.

(** *** Charges *)


Lemma fst_bind_ok {A B} (m : Run A) (f : A -> Run B) (a : A) :
  snd m = Ok a -> fst (bind m f) = (fst m ++ fst (f a))%list.
Proof.
  destruct m as [t r]. cbn. intros ->. unfold bind. now destruct (f a).
Qed.

Lemma swallow_ok (m : Run unit) : snd (try_catch m (fun _ => ret tt)) = Ok tt.
Proof. destruct m as [t [[] | e]]; reflexivity. Qed.

Lemma swallow_trace (m : Run unit) : fst (try_catch m (fun _ => ret tt)) = fst m.
Proof. destruct m as [t [[] | e]]; cbn; [reflexivity | apply app_nil_r]. Qed.

(** Repeating one charge: every charge of the name goes through, or the
    first one throws. *)
Lemma repeat_charge (w : World) (eventName : string) (n : nat) :
  repeat_run n (charge w eventName)
  = match Actor_charge w eventName, n with
    | Some e, S _ => ([EvCharge eventName], Throw e)
    | _, _ => (repeat (EvCharge eventName) n, Ok tt)
    end.
Proof.
  induction n as [| n IH]; cbn [repeat_run repeat].
  - now destruct (Actor_charge w eventName).
  - rewrite IH. unfold charge, call, bind.
    destruct (Actor_charge w eventName) as [e |]; [reflexivity |].
    now destruct n.
Qed.

Lemma charge_for_listings_ok (w : World) (items : list json) (source : string) :
  snd (charge_for_listings w items source) = Ok tt.
Proof. apply swallow_ok. Qed.

Lemma charge_for_listings_full (w : World) (items : list json) (source : string) :
  fst (charge_for_listings (with_charge w (fun _ => None)) items source)
  = full_charges (len items) source.
Proof.
  unfold charge_for_listings, full_charges. rewrite swallow_trace.
  destruct (0 <? len items)%Z eqn:Hpos; [| reflexivity].
  rewrite !repeat_charge. cbn [Actor_charge with_charge].
  unfold bind, charge, call, ret. cbn [Actor_charge with_charge].
  destruct (String.eqb source "redfin" || String.eqb source "realtor"); reflexivity.
Qed.

Ltac initial_part :=
  eexists; cbn [fst repeat app]; rewrite <- ?List.app_assoc; cbn [app];
  rewrite ?List.app_nil_r; reflexivity.

Lemma charge_for_listings_initial (w : World) (items : list json) (source : string) :
  exists rest,
    full_charges (len items) source
    = (fst (charge_for_listings w items source) ++ rest)%list.
Proof.
  unfold charge_for_listings, full_charges. rewrite swallow_trace.
  destruct (0 <? len items)%Z eqn:Hpos; [| now exists []].
  rewrite !repeat_charge. unfold bind, charge, call, ret.
  set (a := Z.to_nat ((len items + 99) / 100)).
  set (b := Z.to_nat (Z.min (len items) 20)).
  assert (a <> 0%nat) as Ha.
  { unfold a. apply Z.ltb_lt in Hpos.
    assert (1 <= (len items + 99) / 100) by (apply Z.div_le_lower_bound; lia). lia. }
  destruct a as [| a]; [congruence |].
  destruct (Actor_charge w "data-volume") as [e |]; [initial_part |].
  destruct (String.eqb source "redfin" || String.eqb source "realtor").
  - destruct (Actor_charge w "premium-source") as [e |]; [initial_part |].
    destruct (Actor_charge w "listing-found") as [e |]; destruct b as [| b];
      initial_part.
  - destruct (Actor_charge w "listing-found") as [e |]; destruct b as [| b];
      initial_part.
Qed.

(** X3: the charges after a successful actor run never throw and never
    exceed the tariff: the charge events are an initial part of one
    [data-volume] per started hundred of items, one [premium-source] for
    Redfin and Realtor, and one [listing-found] per item up to twenty; they
    are exactly that when every charge goes through, and there is none
    when the actor found no item. *)
Theorem charges_follow_tariff (w : World) (items : list json) (source : string) :
  snd (charge_for_listings w items source) = Ok tt
  /\ (exists rest,
        full_charges (len items) source
        = (fst (charge_for_listings w items source) ++ rest)%list)
  /\ fst (charge_for_listings (with_charge w (fun _ => None)) items source)
     = full_charges (len items) source
  /\ full_charges 0 source = [].
Proof.
  split; [apply charge_for_listings_ok |].
  split; [| split; [apply charge_for_listings_full |]].
  - apply charge_for_listings_initial.
  - reflexivity.
Qed.

(** *** The order of the tiers *)

Lemma func_after_actor (w : World) (rt : Runtime) (c : Criteria.t) :
  env_APIFY_TOKEN w = true ->
  Criteria.forceFallback c = false ->
  let source := Criteria.source c in
  func w rt c
  = match Actor_call w (actorId_of source) c with
    | Ok items =>
        (EvActorCall (actorId_of source) :: fst (charge_for_listings w items source),
         Ok (processRealEstateListings items source))
    | Throw _ =>
        (EvActorCall (actorId_of source) :: EvCharge "fallback-extraction"
           :: fst (fallbackToPuppeteerWebBaseLoader w rt c),
         snd (fallbackToPuppeteerWebBaseLoader w rt c))
    end.
Proof.
  intros Htoken Hforce source. unfold func. rewrite Htoken, Hforce. cbn [negb].
  fold source. unfold try_catch at 1, bind at 1, call.
  destruct (Actor_call w (actorId_of source) c) as [items | e].
  - pose proof (charge_for_listings_ok w items source) as Hok.
    destruct (charge_for_listings w items source) as [t r]. cbn in Hok. subst r.
    cbn. now rewrite app_nil_r.
  - pose proof (swallow_ok (charge w "fallback-extraction")) as Hok.
    pose proof (swallow_trace (charge w "fallback-extraction")) as Htr.
    destruct (try_catch (charge w "fallback-extraction") _) as [t r].
    cbn in Hok, Htr. subst r t.
    destruct (fallbackToPuppeteerWebBaseLoader w rt c) as [t r]. reflexivity.
Qed.

(** X4: charging never blocks or alters the result: whatever the charge
    sink does (accept, or throw on any event), the search completes in the
    same way, with the same result. *)
Theorem charges_do_not_alter_result (w : World) (rt : Runtime) (c : Criteria.t)
    (sink : string -> option string) :
  snd (func (with_charge w sink) rt c) = snd (func w rt c).
Proof.
  destruct (env_APIFY_TOKEN w) eqn:Htoken.
  - destruct (Criteria.forceFallback c) eqn:Hforce.
    + unfold func. cbn [env_APIFY_TOKEN with_charge]. now rewrite Htoken, Hforce.
    + rewrite (func_after_actor w rt c Htoken Hforce).
      rewrite (func_after_actor (with_charge w sink) rt c Htoken Hforce).
      cbv zeta. cbn [Actor_call with_charge].
      now destruct (Actor_call w _ c).
  - unfold func. cbn [env_APIFY_TOKEN with_charge]. now rewrite Htoken.
Qed.

(** X5: with the token configured and no forced fallback, the fallback
    runs exactly when the actor call throws.  When the actor returns, even
    with no item at all, the result is the mapping of its items and no
    page, model or HTTP collaborator is called; when it throws, one
    [fallback-extraction] charge is attempted and the result is the
    fallback driver's. *)
Theorem fallback_only_when_actor_throws (w : World) (rt : Runtime) (c : Criteria.t) :
  env_APIFY_TOKEN w = true ->
  Criteria.forceFallback c = false ->
  match Actor_call w (actorId_of (Criteria.source c)) c with
  | Ok items =>
      snd (func w rt c) = Ok (processRealEstateListings items (Criteria.source c))
      /\ Forall actor_or_charge (fst (func w rt c))
  | Throw _ =>
      snd (func w rt c) = snd (fallbackToPuppeteerWebBaseLoader w rt c)
      /\ fst (func w rt c)
         = EvActorCall (actorId_of (Criteria.source c)) :: EvCharge "fallback-extraction"
             :: fst (fallbackToPuppeteerWebBaseLoader w rt c)
  end.
Proof.
  intros Htoken Hforce. rewrite (func_after_actor w rt c Htoken Hforce). cbv zeta.
  destruct (Actor_call w _ c) as [items | e]; cbn [fst snd]; [| now split].
  split; [reflexivity |]. constructor; [exact I |].
  destruct (charge_for_listings_initial w items (Criteria.source c)) as [rest Hrest].
  assert (Forall actor_or_charge (full_charges (len items) (Criteria.source c))) as Hfull.
  { unfold full_charges. destruct (0 <? len items)%Z; [| constructor].
    apply List.Forall_app. split; [| apply List.Forall_app; split].
    - apply List.Forall_forall. intros ev Hev. apply repeat_spec in Hev. now subst.
    - destruct (_ || _); repeat constructor.
    - apply List.Forall_forall. intros ev Hev. apply repeat_spec in Hev. now subst. }
  rewrite Hrest in Hfull. now apply List.Forall_app in Hfull.
Qed.

(** The Seattle search in a world whose actor answers with no item. *)
Lemma fallback_only_when_actor_throws_witness :
  let w := with_charge failing_world (fun _ => Some "charge refused") in
  let quiet := {| env_APIFY_TOKEN := true;
                  Actor_call := fun _ _ => Ok [];
                  Actor_charge := Actor_charge w;
                  loader_load := loader_load w;
                  model_invoke := model_invoke w;
                  axios_get := axios_get w |} in
  env_APIFY_TOKEN quiet = true
  /\ Criteria.forceFallback seattle = false
  /\ snd (func quiet sample_runtime seattle)
     = Ok {| count := 0; listings := []; note := None; error := None |}.
Proof.
  intros w quiet. split; [reflexivity |]. split; [reflexivity |].
  exact (proj1 (fallback_only_when_actor_throws quiet sample_runtime seattle
                  eq_refl eq_refl)).
Defined.

(** *** With and without a rendered page *)

Lemma extractListingsWithLLM_trace (w : World) (rt : Runtime)
    (content criteria source : string) :
  fst (extractListingsWithLLM w rt content criteria source) = [EvModelInvoke]
  /\ exists o, snd (extractListingsWithLLM w rt content criteria source) = Ok o.
Proof.
  unfold extractListingsWithLLM, try_catch, bind, call.
  destruct (model_invoke w criteria _); cbn; split; eauto.
Qed.

(** X6: when the page load yields a document, the plain HTTP tier is never
    used: the result is the model's listings when the model gave at least
    one, and those of pattern extraction on the first document otherwise,
    and the only collaborators called are the page loader and the model,
    once each. *)
Theorem page_loaded_never_falls_to_http (w : World) (rt : Runtime) (c : Criteria.t)
    (pageContent : string) (docs : list string) :
  loader_load w c = Ok (pageContent :: docs) ->
  fst (fallbackToPuppeteerWebBaseLoader w rt c) = [EvPageLoad; EvModelInvoke]
  /\ snd (fallbackToPuppeteerWebBaseLoader w rt c)
     = Ok (let patterns := processDocumentWithPatterns rt pageContent (Criteria.source c) in
           match snd (extractListingsWithLLM w rt pageContent (criteria_sentence c)
                        (Criteria.source c)) with
           | Ok (Some r) => if Z.ltb 0 (count r) then r else patterns
           | _ => patterns
           end).
Proof.
  intros Hload.
  destruct (extractListingsWithLLM_trace w rt pageContent (criteria_sentence c)
              (Criteria.source c)) as (Htr & o & Ho).
  assert (fallbackToPuppeteerWebBaseLoader w rt c
          = ([EvPageLoad; EvModelInvoke],
             Ok (match o with
                 | Some r =>
                     if Z.ltb 0 (count r) then r
                     else processDocumentWithPatterns rt pageContent (Criteria.source c)
                 | None => processDocumentWithPatterns rt pageContent (Criteria.source c)
                 end))) as Hrun.
  { unfold fallbackToPuppeteerWebBaseLoader. cbv zeta.
    unfold try_catch at 1, bind at 1, call. rewrite Hload. cbv beta iota.
    destruct (extractListingsWithLLM w rt pageContent _ _) as [t r].
    cbn [fst snd] in Htr, Ho. subst t r. unfold bind, ret.
    destruct o as [r |]; [destruct (0 <? count r)%Z |]; reflexivity. }
  rewrite Hrun, Ho. cbv zeta. cbn [fst snd]. split; [reflexivity |].
  destruct o as [r |]; reflexivity.
Qed.

Lemma page_loaded_never_falls_to_http_witness :
  loader_load model_world seattle = Ok [one_price_page]
  /\ fst (fallbackToPuppeteerWebBaseLoader model_world sample_runtime seattle)
     = [EvPageLoad; EvModelInvoke].
Proof.
  split; [reflexivity |].
  exact (proj1 (page_loaded_never_falls_to_http model_world sample_runtime seattle
                  one_price_page [] eq_refl)).
Defined.

(** X7: when the page load throws, or yields no document, the driver's
    result is exactly the result of the simple scraping fallback, reached
    after one page load; the error of the page load is dropped. *)
Theorem no_page_means_simple_scraping (w : World) (rt : Runtime) (c : Criteria.t) :
  (loader_load w c = Ok [] \/ exists e, loader_load w c = Throw e) ->
  fallbackToPuppeteerWebBaseLoader w rt c
  = (EvPageLoad :: fst (simpleScrapingFallback w c), snd (simpleScrapingFallback w c)).
Proof.
  intros Hload. unfold fallbackToPuppeteerWebBaseLoader.
  pose proof (simpleScrapingFallback_returns w c) as Hs. unfold returns in Hs.
  unfold try_catch at 1, bind at 1, call.
  destruct Hload as [-> | [e ->]]; unfold throw, try_catch;
    destruct (simpleScrapingFallback w c) as [t [r | e']]; cbn in *;
    try contradiction; reflexivity.
Qed.

Lemma no_page_means_simple_scraping_witness :
  (loader_load failing_world seattle = Ok []
   \/ exists e, loader_load failing_world seattle = Throw e)
  /\ snd (fallbackToPuppeteerWebBaseLoader failing_world sample_runtime seattle)
     = snd (simpleScrapingFallback failing_world seattle).
Proof.
  assert (loader_load failing_world seattle = Ok []
          \/ exists e, loader_load failing_world seattle = Throw e) as H
    by (right; eexists; reflexivity).
  split; [exact H |].
  now rewrite (no_page_means_simple_scraping failing_world sample_runtime seattle H).
Defined.

(** *** Simple scraping *)



(** *** Bounds of pattern extraction *)

(** X9: pattern extraction never gives more listings than there are price
    tokens, and none (and no error) for a page without a price; with at
    most ten price tokens it gives exactly one listing per price, whatever
    the other token lists hold; beyond ten listings every other token list
    is at least as long as the listing count. *)
Theorem pattern_count_bounds (rt : Runtime) (content source : string) :
  let r := processDocumentWithPatterns rt content source in
  let prices := matchAll_price rt content in
  0 <= count r <= len prices
  /\ (len prices <= 10 -> count r = len prices)
  /\ (prices = [] -> listings r = [] /\ error r = None)
  /\ (10 < count r ->
      count r <= len (matchAll_address rt content)
      /\ count r <= len (matchAll_bedroom rt content)
      /\ count r <= len (matchAll_bathroom rt content)
      /\ count r <= len (matchAll_sqft rt content)).
Proof.
  intros r prices.
  assert (count r = maxEntries prices (matchAll_address rt content)
                      (matchAll_bedroom rt content) (matchAll_bathroom rt content)
                      (matchAll_sqft rt content)) as Hcount
    by apply pattern_listings_length.
  rewrite Hcount. unfold maxEntries, len.
  split; [lia |]. split; [lia |]. split; [| lia].
  intros Hnil. unfold r, processDocumentWithPatterns. cbn [listings error].
  fold prices. rewrite Hnil. split; [| reflexivity].
  assert (maxEntries [] (matchAll_address rt content) (matchAll_bedroom rt content)
            (matchAll_bathroom rt content) (matchAll_sqft rt content) = 0) as ->
    by (unfold maxEntries, len; cbn [length]; lia).
  reflexivity.
Qed.

(** *** The excerpt sent to the model *)

Lemma substring_length (n : nat) (s : string) :
  (String.length (String.substring 0 n s) <= n)%nat.
Proof.
  revert s. induction n as [| n IH]; intros [| c s]; cbn; try lia.
  specialize (IH s). lia.
Qed.

Lemma substring_prefix (n : nat) (s : string) :
  exists rest, s = String.substring 0 n s +:+ rest.
Proof.
  revert s. induction n as [| n IH]; intros [| c s]; cbn.
  - now exists EmptyString.
  - now exists (String c s).
  - now exists EmptyString.
  - destruct (IH s) as [rest Hrest]. exists rest.
    change (String c (String.substring 0 n s) +:+ rest)
      with (String c (String.substring 0 n s +:+ rest)).
    now rewrite <- Hrest.
Qed.

Lemma substring_short (n : nat) (s : string) :
  (String.length s <= n)%nat -> String.substring 0 n s = s.
Proof.
  revert s. induction n as [| n IH]; intros [| c s]; cbn; trivial; try lia.
  intros H. f_equal. apply IH. lia.
Qed.

(** X10: model extraction never throws and calls the model exactly once;
    the model sees an initial part of the page of at most 12000
    characters (the whole page when it is no longer), and what comes after
    it has no influence on the outcome. *)
Theorem model_sees_first_12000 (w : World) (rt : Runtime)
    (content criteria source : string) :
  let excerpt := String.substring 0 12000 content in
  fst (extractListingsWithLLM w rt content criteria source) = [EvModelInvoke]
  /\ (exists o, snd (extractListingsWithLLM w rt content criteria source) = Ok o)
  /\ (String.length excerpt <= 12000)%nat
  /\ (exists rest, content = excerpt +:+ rest)
  /\ ((String.length content <= 12000)%nat -> excerpt = content)
  /\ (forall other, String.substring 0 12000 other = excerpt ->
        extractListingsWithLLM w rt other criteria source
        = extractListingsWithLLM w rt content criteria source).
Proof.
  intros excerpt.
  destruct (extractListingsWithLLM_trace w rt content criteria source) as [Htr Hok].
  split; [exact Htr |]. split; [exact Hok |].
  split; [apply substring_length |]. split; [apply substring_prefix |].
  split; [apply substring_short |].
  intros other Hother. unfold extractListingsWithLLM. now rewrite Hother.
Qed.

(** *** The bare-array branch *)

Lemma endsWith_app (a b : string) : endsWith (a +:+ b) b = true.
Proof.
  induction a as [| c a IH].
  - change (EmptyString +:+ b) with b. destruct b as [| c b]; [reflexivity |].
    cbn [endsWith]. now rewrite String.eqb_refl.
  - change (String c a +:+ b) with (String c (a +:+ b)). cbn [endsWith].
    rewrite IH. apply orb_true_r.
Qed.

(** X11: a reply without a fenced block is never turned into listings.
    The bare pattern stops at the colon after the first key, so the text
    handed to the parser ends with a colon and the appended bracket, and
    any parser that refuses such a text (as [JSON.parse] does) makes the
    function return null, even for a reply that is a well-formed array. *)
Theorem bare_array_never_parses (rt : Runtime) (responseText source modelUsed : string) :
  (forall text, endsWith text ":]" = true -> forall v, JSON_parse rt text <> Ok v) ->
  match_fenced responseText = None ->
  processLLMResponse rt responseText source modelUsed = None.
Proof.
  intros Hrefuse Hfence. rewrite processLLMResponse_refines.
  unfold model_response_as_specified, json_candidate. rewrite Hfence.
  destruct (match_bare responseText) as [m |] eqn:Hbare; [| reflexivity].
  destruct (match_bare_unterminated _ _ Hbare) as (x & Hwhole & Hclose).
  rewrite Hclose.
  assert (endsWith (whole m +:+ "]") ":]" = true) as Hends.
  { rewrite Hwhole.
    replace (("[" +:+ x +:+ ":") +:+ "]") with (("[" +:+ x) +:+ ":]").
    - apply endsWith_app.
    - now rewrite !append_assoc. }
  specialize (Hrefuse _ Hends).
  destruct (JSON_parse rt (whole m +:+ "]")) as [v | e]; [| reflexivity].
  now destruct (Hrefuse v).
Qed.

Lemma sample_runtime_refuses (text : string) :
  endsWith text ":]" = true -> forall v, JSON_parse sample_runtime text <> Ok v.
Proof.
  intros Hends v. cbn [JSON_parse sample_runtime].
  destruct (String.eqb_spec text fenced_reply_json) as [-> | _]; [discriminate Hends |].
  destruct (String.eqb_spec text "[null]") as [-> | _]; [discriminate Hends |].
  discriminate.
Qed.

(** A well-formed array without a fence is lost. *)
Lemma bare_array_never_parses_witness :
  match_fenced bare_reply = None
  /\ option_map whole (match_bare bare_reply) = Some ("[{" +:+ DQ +:+ "address" +:+ DQ +:+ ":")
  /\ processLLMResponse sample_runtime bare_reply "zillow" "OpenAI" = None.
Proof.
  split; [reflexivity |]. split; [reflexivity |].
  exact (bare_array_never_parses sample_runtime bare_reply "zillow" "OpenAI"
           sample_runtime_refuses eq_refl).
Defined.

(** *** Request URLs *)

Lemma chars_app (a b : string) : chars (a +:+ b) = (chars a ++ chars b)%list.
Proof.
  induction a as [| c a IH]; [reflexivity |].
  change (String c a +:+ b) with (String c (a +:+ b)). cbn [chars app]. now rewrite IH.
Qed.

Lemma encode_unit_safe (c : ascii) : forallb url_safe (chars (encode_unit c)) = true.
Proof. destruct c as [[] [] [] [] [] [] [] []]; vm_compute; reflexivity. Qed.

Lemma encode_unit_unreserved (c : ascii) :
  is_unreserved c = true -> encode_unit c = String c EmptyString.
Proof. intros H. unfold encode_unit. now rewrite H. Qed.

(** X12: [encodeURIComponent] yields only unreserved characters and
    percent signs, so no character of a location can end the path or start
    a query in a request URL; a text made of unreserved characters is left
    as it is. *)
Theorem encoded_location_is_url_safe (s : string) :
  forallb url_safe (chars (encodeURIComponent s)) = true
  /\ (forallb is_unreserved (chars s) = true -> encodeURIComponent s = s).
Proof.
  split.
  - induction s as [| c s IH]; [reflexivity |].
    cbn [encodeURIComponent]. rewrite chars_app, forallb_app, encode_unit_safe. exact IH.
  - induction s as [| c s IH]; [reflexivity |].
    cbn [chars forallb encodeURIComponent]. intros H.
    apply andb_true_iff in H as [Hc Hs].
    now rewrite (encode_unit_unreserved c Hc), (IH Hs).
Qed.



(** *** Registering a monitor *)



(** *** From registration to the first poll, and to the next *)




Lemma shouldRunMonitor_ms (monitorConfig : MonitorConfig.t) (now lastChecked : Z) :
  MonitorConfig.lastChecked monitorConfig = Some lastChecked ->
  shouldRunMonitor monitorConfig now = true
  <-> threshold_ms (MonitorConfig.frequency monitorConfig) <= now - lastChecked.
Proof.
  intros H. rewrite (shouldRunMonitor_unfold _ _ _ H).
  etransitivity; [apply Qle_bool_iff | apply threshold_hours_ms].
Qed.



(** *** What a sweep never does *)

Section SweepInvariants.

Variable search : nat -> Criteria.t -> result ExtractionResult.
Variable clock : nat -> Z.
Variable now : Z.

Lemma outcome_entry_id (i : nat) (entries : gmap string MonitorConfig.t)
    (monitorId : string) :
  entry_id (outcome search now i entries monitorId) = monitorId.
Proof.
  unfold outcome. destruct (entries !! monitorId) as [c |]; [| reflexivity].
  destruct (shouldRunMonitor c now); [| reflexivity].
  destruct (search i (search_args c)); [| reflexivity].
  cbv zeta. now destruct (findNewListings _ _).
Qed.

Lemma just_checked_not_due (monitorConfig : MonitorConfig.t) :
  MonitorConfig.lastChecked monitorConfig = Some now ->
  shouldRunMonitor monitorConfig now = false.
Proof.
  intros H. apply not_true_is_false. intros Hrun.
  apply (shouldRunMonitor_ms _ _ _ H) in Hrun.
  assert (0 < threshold_ms (MonitorConfig.frequency monitorConfig)); [| lia].
  unfold threshold_ms. destruct (MonitorConfig.frequency monitorConfig) as [f |]; [| lia].
  destruct (String.eqb f "realtime"); [lia |]. destruct (String.eqb f "weekly"); lia.
Qed.

Lemma tally_nonneg (f : LogEntry -> bool) (l : list LogEntry) : 0 <= tally f l.
Proof. unfold tally. lia. Qed.

Lemma polled_once_step (i : nat) (st : Sweep) (monitorId : string) :
  polled_once now st -> polled_once now (process_monitor search clock now i st monitorId).
Proof.
  intros Hinv other.
  destruct (process_monitor_step search clock now i st monitorId)
    as (Hlog & _ & _ & Hkeep).
  rewrite Hlog, tally_snoc. unfold polled_as at 2 4.
  rewrite outcome_entry_id.
  destruct (Hinv other) as [Hle Hone].
  pose proof (tally_nonneg (polled_as other) (log st)) as Hge.
  destruct (polled (outcome search now i (entries st) monitorId)) eqn:Hpolled.
  - apply outcome_polled in Hpolled as (c & r & Hget & Hrun & Hsearch).
    destruct (process_monitor_polled search clock now i st monitorId c r Hget Hrun Hsearch)
      as [Hentries _].
    rewrite Hentries. cbn [andb].
    destruct (String.eqb_spec monitorId other) as [<- | Hne].
    + assert (tally (polled_as monitorId) (log st) = 0) as Hzero.
      { destruct (Z.eq_dec (tally (polled_as monitorId) (log st)) 1) as [H1 | H1]; [| lia].
        destruct (Hone H1) as (c' & Hget' & Hlast).
        rewrite Hget in Hget'. injection Hget' as <-.
        rewrite (just_checked_not_due c Hlast) in Hrun. discriminate. }
      rewrite Hzero. split; [lia |]. intros _.
      eexists. split; [apply lookup_insert_eq | reflexivity].
    + rewrite Z.add_0_r. split; [exact Hle |]. intros H1.
      rewrite lookup_insert_ne; [now apply Hone | exact Hne].
  - cbn [andb]. rewrite Z.add_0_r, (Hkeep eq_refl). now split.
Qed.

Lemma polled_once_sweep (i : nat) (monitorsList : list string) (st : Sweep) :
  polled_once now st -> polled_once now (sweep_from search clock now i monitorsList st).
Proof.
  revert i st. induction monitorsList as [| a l IH]; intros i st H; cbn [sweep_from].
  - exact H.
  - apply IH. now apply polled_once_step.
Qed.

Lemma same_monitors_step (s : Store) (i : nat) (st : Sweep) (monitorId : string) :
  same_monitors s st -> same_monitors s (process_monitor search clock now i st monitorId).
Proof.
  intros Hinv other.
  destruct (process_monitor_step search clock now i st monitorId) as (_ & _ & _ & Hkeep).
  destruct (polled (outcome search now i (entries st) monitorId)) eqn:Hpolled.
  - apply outcome_polled in Hpolled as (c & r & Hget & Hrun & Hsearch).
    destruct (process_monitor_polled search clock now i st monitorId c r Hget Hrun Hsearch)
      as [Hentries _].
    rewrite Hentries.
    destruct (String.eqb_spec monitorId other) as [<- | Hne].
    + rewrite lookup_insert_eq. specialize (Hinv monitorId).
      destruct (configs s !! monitorId) as [original |].
      * destruct Hinv as (current & Hcur & Hsame). rewrite Hget in Hcur.
        injection Hcur as <-. eexists. split; [reflexivity |]. exact Hsame.
      * congruence.
    + rewrite lookup_insert_ne; [apply Hinv | exact Hne].
  - rewrite (Hkeep eq_refl). apply Hinv.
Qed.

Lemma same_monitors_sweep (s : Store) (i : nat) (monitorsList : list string) (st : Sweep) :
  same_monitors s st -> same_monitors s (sweep_from search clock now i monitorsList st).
Proof.
  revert i st. induction monitorsList as [| a l IH]; intros i st H; cbn [sweep_from].
  - exact H.
  - apply IH. now apply same_monitors_step.
Qed.

Lemma same_monitors_start (s : Store) : same_monitors s (start s).
Proof.
  intros monitorId. cbn [start entries].
  destruct (configs s !! monitorId) as [c |]; [| reflexivity].
  exists c. split; [reflexivity |]. repeat split.
Qed.

End SweepInvariants.

(** X17: a sweep polls each monitor at most once, also when the monitors
    list names it several times: after its poll the monitor carries the
    instant of the sweep as its last check, so its later turns find it not
    due. *)
Theorem one_poll_per_monitor (search : nat -> Criteria.t -> result ExtractionResult)
    (clock : nat -> Z) (now : Z) (s : Store) (monitorId : string) :
  tally (polled_as monitorId) (log (run_sweep search clock now s)) <= 1.
Proof.
  unfold run_sweep.
  apply (polled_once_sweep search clock now 0 _ (start s)).
  intros other. cbn [start log]. split; [unfold tally; cbn; lia |].
  unfold tally. cbn. discriminate.
Qed.

(** X18: a sweep neither adds nor removes a monitor and never changes the
    id, the creation time, the criteria, the frequency or the notification
    address of one; only the last check, the last results and the next run
    are written. *)
Theorem sweep_keeps_monitors (search : nat -> Criteria.t -> result ExtractionResult)
    (clock : nat -> Z) (now : Z) (s : Store) (monitorId : string) :
  let after := snd (processAllMonitors search clock now s) in
  match configs s !! monitorId with
  | Some original =>
      exists current, configs after !! monitorId = Some current
                      /\ same_identity current original
  | None => configs after !! monitorId = None
  end.
Proof.
  cbv zeta.
  assert (configs (snd (processAllMonitors search clock now s))
          = entries (run_sweep search clock now s)) as ->.
  { unfold processAllMonitors, run_sweep. now destruct (default [] (monitors_list s)). }
  apply (same_monitors_sweep search clock now s 0 _ (start s)), same_monitors_start.
Qed.

(** *** Polling twice *)

Lemma same_value_zero_refl (v : value) : by_value v = true -> same_value_zero v v = true.
Proof.
  destruct v as [| | []]; cbn; trivial; try discriminate; intros _.
  - now destruct b.
  - apply Qeq_bool_iff. reflexivity.
  - apply String.eqb_refl.
Qed.

Lemma same_value_zero_by_value (a b : value) :
  same_value_zero a b = true -> by_value a = true.
Proof. destruct a as [| | []], b as [| | []]; cbn; trivial; discriminate. Qed.

(** X19: when a poll finds the very listings of the previous poll, the
    only ones reported as new are those whose url is an array or an
    object (which never compares equal); in particular nothing is
    reported when every url is a string, a number, a boolean, null or
    missing. *)
Theorem same_results_report_nothing (current : list Listing) :
  findNewListings current (Some current)
  = List.filter (fun l => negb (by_value (url l))) current.
Proof.
  rewrite findNewListings_filter. cbn [default].
  apply List.filter_ext_in. intros l Hl. f_equal. unfold seen.
  destruct (by_value (url l)) eqn:Hv.
  - apply existsb_exists. exists l. split; [exact Hl |]. now apply same_value_zero_refl.
  - apply not_true_is_false. intros Hex. apply existsb_exists in Hex as (p & _ & Hp).
    apply same_value_zero_by_value in Hp. congruence.
Qed.

(** *** The direct actions of the script *)

(** X20: a direct [search] action never carries the source, the result
    limit or the forced-fallback flag of the actor input: the script does
    not read them, so the search tool is always given source [any], at
    most 10 results and no forced fallback, and (with the token
    configured) it starts by calling the all-in-one actor. *)
Theorem direct_search_ignores_source (input : json) (args : RawArgs.t) :
  direct_action input = Some (Ok (InvokeSearch args)) ->
  RawArgs.source args = str "any"
  /\ RawArgs.maxResults args = J (JNum (inject_Z 10))
  /\ RawArgs.forceFallback args = J (JBool false)
  /\ (forall c, searchSchema args = Some c ->
        Criteria.source c = "any"
        /\ Criteria.maxResults c = 10
        /\ Criteria.forceFallback c = false
        /\ forall w rt, env_APIFY_TOKEN w = true ->
             head (fst (func w rt c))
             = Some (EvActorCall "scrapestorm/zillow-search-scraper-all-in-one")).
Proof.
  unfold direct_action. destruct (get input "action") as [| | [| | | action | |]];
    try discriminate.
  destruct (existsb (String.eqb action) _); [| discriminate].
  unfold processRealEstateAction.
  destruct (String.eqb action "search").
  2:{ destruct (String.eqb action "monitor"); [discriminate |].
      destruct (String.eqb action "check-monitor"); [| discriminate].
      destruct (truthy _); discriminate. }
  intros [= <-]. cbn [RawArgs.source RawArgs.maxResults RawArgs.forceFallback
                      direct_params Params.source Params.maxResults Params.forceFallback].
  repeat split; try reflexivity.
  all: unfold searchSchema in H;
    cbn [RawArgs.source RawArgs.maxResults RawArgs.forceFallback RawArgs.location
         RawArgs.minPrice RawArgs.maxPrice RawArgs.propertyType RawArgs.bedrooms
         RawArgs.bathrooms direct_params Params.source Params.maxResults
         Params.forceFallback Params.location Params.minPrice Params.maxPrice
         Params.propertyType Params.bedrooms Params.bathrooms] in H;
    destruct (get input "location") as [| | [| | | location | |]]; try discriminate;
    destruct (optional_int None (get input "minPrice")); try discriminate;
    destruct (optional_int None (get input "maxPrice")); try discriminate;
    destruct (enum_default _ "any" (get input "propertyType")); try discriminate;
    destruct (optional_int (Some 0) (get input "bedrooms")); try discriminate;
    destruct (optional_int (Some 0) (get input "bathrooms")); try discriminate;
    cbn in H; injection H as <-; try reflexivity.
  intros w rt Htoken. now apply func_calls_actor_first.
Qed.

(** The fallback test of the README asks for Zillow and for the forced
    fallback; the search it starts has neither. *)
Lemma direct_search_ignores_source_witness :
  exists args,
    direct_action fallback_test_input = Some (Ok (InvokeSearch args))
    /\ searchSchema args = Some denver_any
    /\ RawArgs.source args = str "any"
    /\ RawArgs.forceFallback args = J (JBool false).
Proof.
  eexists. split; [reflexivity |]. split; [vm_compute; reflexivity |].
  pose proof (direct_search_ignores_source fallback_test_input _ eq_refl)
    as (Hsource & _ & Hforce & _).
  split; [exact Hsource | exact Hforce].
Defined.

(** *** The price pattern *)

Lemma digit_is_price_char (c : ascii) : is_digit c = true -> price_char c = true.
Proof. unfold price_char. now intros ->. Qed.

Lemma digits_price_chars (s : string) :
  forallb is_digit (chars s) = true -> forallb price_char (chars s) = true.
Proof.
  rewrite !List.forallb_forall. intros H c Hc. apply digit_is_price_char. now apply H.
Qed.

Lemma digits_upto_digits (n : nat) (s : string) :
  forallb is_digit (chars (fst (digits_upto n s))) = true.
Proof.
  revert s. induction n as [| n IH]; intros [| c s]; cbn [digits_upto]; try reflexivity.
  destruct (is_digit c) eqn:E; [| reflexivity].
  specialize (IH s). destruct (digits_upto n s) as [d r].
  cbn [fst chars forallb] in *. now rewrite E.
Qed.

Lemma digits_digits (s : string) : forallb is_digit (chars (fst (digits s))) = true.
Proof.
  induction s as [| c s IH]; cbn [digits]; [reflexivity |].
  destruct (is_digit c) eqn:E; [| reflexivity].
  destruct (digits s) as [d r]. cbn [fst chars forallb] in *. now rewrite E.
Qed.

Lemma groups_price_chars (n : nat) (s : string) :
  (String.length s <= n)%nat -> forallb price_char (chars (fst (groups s))) = true.
Proof.
  revert s. induction n as [| n IH]; intros s Hn.
  - destruct s; [reflexivity | cbn in Hn; lia].
  - destruct s as [| c0 [| c1 [| c2 [| c3 rest]]]]; try reflexivity.
    cbn [groups].
    destruct (Ascii.eqb c0 ","%char) eqn:E0; [| reflexivity].
    destruct (is_digit c1) eqn:E1; [| reflexivity].
    destruct (is_digit c2) eqn:E2; [| reflexivity].
    destruct (is_digit c3) eqn:E3; [| reflexivity].
    cbn [andb].
    assert (forallb price_char (chars (fst (groups rest))) = true) as Hrest
      by (apply IH; cbn [String.length] in Hn; lia).
    destruct (groups rest) as [g r]. cbn [fst chars forallb] in *.
    unfold price_char at 1 2 3 4. rewrite E0, E1, E2, E3, Hrest.
    now rewrite !orb_true_r.
Qed.

Lemma fraction_price_chars (s : string) :
  forallb price_char (chars (fst (fraction s))) = true.
Proof.
  destruct s as [| c s]; [reflexivity |].
  destruct (Ascii.eqb c "."%char) eqn:E.
  - apply Ascii.eqb_eq in E as ->. cbn [fraction].
    pose proof (digits_digits s) as Hd. destruct (digits s) as [d r].
    destruct (String.eqb d EmptyString); [reflexivity |].
    cbn [fst chars forallb] in *. now rewrite digits_price_chars.
  - assert (fraction (String c s) = (EmptyString, String c s)) as ->; [| reflexivity].
    destruct c as [[] [] [] [] [] [] [] []]; try reflexivity. discriminate E.
Qed.

(** A match of the price pattern: a dollar sign, a digit, then digits,
    commas and periods. *)
Lemma price_at_shape (s m : string) :
  price_at s = Some m ->
  exists d rest, m = String "$"%char (String d rest)
                 /\ is_digit d = true /\ forallb price_char (chars rest) = true.
Proof.
  destruct s as [| c s1]; [discriminate |].
  destruct (Ascii.eqb c "$"%char) eqn:E.
  2:{ intros H. exfalso. revert H.
      destruct c as [[] [] [] [] [] [] [] []]; discriminate. }
  apply Ascii.eqb_eq in E as ->. cbn [price_at].
  pose proof (digits_upto_digits 3 s1) as Hd.
  destruct (digits_upto 3 s1) as [d r1]. cbn [fst] in Hd.
  destruct d as [| d0 d']; [discriminate |].
  change (String.eqb (String d0 d') EmptyString) with false. cbv iota.
  pose proof (groups_price_chars _ r1 (le_n _)) as Hg.
  destruct (groups r1) as [g r2]. cbn [fst] in Hg.
  pose proof (fraction_price_chars r2) as Hf.
  destruct (fraction r2) as [f r3]. cbn [fst] in Hf.
  intros [= <-]. exists d0, (d' +:+ g +:+ f).
  cbn [chars forallb] in Hd. apply andb_prop in Hd as [Hd0 Hd'].
  split; [reflexivity |]. split; [exact Hd0 |].
  rewrite !chars_app, !forallb_app, Hg, Hf. now rewrite digits_price_chars.
Qed.

Lemma price_at_dollar (s m : string) :
  price_at s = Some m -> exists s', s = String "$"%char s'.
Proof.
  destruct s as [| c s1]; [discriminate |].
  destruct (Ascii.eqb c "$"%char) eqn:E.
  - apply Ascii.eqb_eq in E as ->. intros _. now exists s1.
  - intros H. exfalso. revert H.
    destruct c as [[] [] [] [] [] [] [] []]; discriminate.
Qed.

Lemma matchAll_price_from_bound (skip : nat) (content : string) :
  (length (matchAll_price_from skip content) <= dollars content)%nat.
Proof.
  revert skip. induction content as [| c rest IH]; intros skip; [cbn; lia |].
  assert (dollars rest <= dollars (String c rest))%nat as Hmono.
  { unfold dollars. cbn [chars List.filter]. destruct (Ascii.eqb "$"%char c); cbn [length]; lia. }
  cbn [matchAll_price_from]. destruct skip as [| k].
  - destruct (price_at (String c rest)) as [m |] eqn:E.
    + apply price_at_dollar in E as (s' & [= -> ->]).
      specialize (IH (String.length m - 1)%nat).
      unfold dollars in *. cbn [chars List.filter Ascii.eqb Bool.eqb andb length]. cbn. lia.
    + specialize (IH 0%nat). lia.
  - specialize (IH k). lia.
Qed.

Lemma matchAll_price_from_shape (skip : nat) (content : string) :
  Forall (fun m => exists d rest, m = String "$"%char (String d rest)
                                  /\ is_digit d = true
                                  /\ forallb price_char (chars rest) = true)
         (matchAll_price_from skip content).
Proof.
  revert skip. induction content as [| c rest IH]; intros skip; [constructor |].
  cbn [matchAll_price_from]. destruct skip as [| k]; [| apply IH].
  destruct (price_at (String c rest)) as [m |] eqn:E; [| apply IH].
  constructor; [now apply price_at_shape in E | apply IH].
Qed.

(** X21: with the price pattern of the source, pattern extraction gives
    at most one listing per dollar sign of the page, hence none for a page
    without a dollar sign, whatever addresses, bedrooms, bathrooms or
    areas it shows; and the price of every listing is a dollar sign, a
    digit, then digits, commas and periods only, never the placeholder. *)
Theorem pattern_listings_need_dollar_signs (rt : Runtime) (content source : string) :
  let r := processDocumentWithPatterns (with_price_pattern rt) content source in
  count r <= Z.of_nat (dollars content)
  /\ (dollars content = 0%nat -> listings r = [])
  /\ Forall (fun l => exists d rest,
                 price l = str (String "$"%char (String d rest))
                 /\ is_digit d = true
                 /\ forallb price_char (chars rest) = true)
            (listings r).
Proof.
  intros r.
  pose proof (matchAll_price_from_bound 0 content) as Hbound.
  pose proof (matchAll_price_from_shape 0 content) as Hshape.
  pose proof (pattern_listings_length (with_price_pattern rt) content source) as Hlen.
  pose proof (maxEntries_nonneg
                (matchAll_price (with_price_pattern rt) content)
                (matchAll_address (with_price_pattern rt) content)
                (matchAll_bedroom (with_price_pattern rt) content)
                (matchAll_bathroom (with_price_pattern rt) content)
                (matchAll_sqft (with_price_pattern rt) content)) as Hmax.
  fold r in Hlen. rewrite <- Hlen in Hmax.
  change (matchAll_price (with_price_pattern rt) content)
    with (matchAll_price_from 0 content) in Hmax.
  assert (count r = len (listings r)) as Hcount by reflexivity.
  unfold len in *.
  split; [lia |]. split.
  - intros Hzero. destruct (listings r); [reflexivity | cbn [length] in *; lia].
  - unfold r, processDocumentWithPatterns. cbn [listings].
    apply List.Forall_forall. intros l Hl.
    apply in_map_iff in Hl as (i & <- & Hi). apply in_seq in Hi.
    cbn [pattern_listing price]. unfold token_or.
    change (matchAll_price (with_price_pattern rt) content)
      with (matchAll_price_from 0 content) in *.
    set (prices := matchAll_price_from 0 content) in *.
    destruct (prices !! i) as [m |] eqn:Hm.
    + cbn [default]. rewrite List.Forall_forall in Hshape.
      destruct (Hshape m) as (d & rest & -> & Hd & Hrest).
      { apply list_elem_of_In. eapply list_elem_of_lookup_2. exact Hm. }
      now exists d, rest.
    + exfalso. apply lookup_ge_None in Hm.
      pose proof (maxEntries_nonneg prices
                    (matchAll_address (with_price_pattern rt) content)
                    (matchAll_bedroom (with_price_pattern rt) content)
                    (matchAll_bathroom (with_price_pattern rt) content)
                    (matchAll_sqft (with_price_pattern rt) content)) as Hm2.
      unfold len in Hm2. lia.
Qed.

Lemma digit_fraction (d : ascii) (rest : string) :
  is_digit d = true -> fraction (String d rest) = (EmptyString, String d rest).
Proof.
  intros H. destruct d as [[] [] [] [] [] [] [] []]; try reflexivity; discriminate H.
Qed.

Lemma digit_groups (d : ascii) (rest : string) :
  is_digit d = true -> groups (String d rest) = (EmptyString, String d rest).
Proof.
  intros H. destruct rest as [| c1 [| c2 [| c3 rest]]]; try reflexivity.
  cbn [groups].
  assert (Ascii.eqb d ","%char = false) as ->; [| reflexivity].
  destruct d as [[] [] [] [] [] [] [] []]; try reflexivity; discriminate H.
Qed.

(** X22: the price pattern needs commas between the thousands: of a price
    written with four digits or more and no comma, only the first three
    digits are taken, by pattern extraction and by the simple scraping
    fallback alike. *)
Theorem ungrouped_price_is_cut (a b c d : ascii) (rest : string) :
  is_digit a = true -> is_digit b = true -> is_digit c = true -> is_digit d = true ->
  let text := String "$"%char (String a (String b (String c (String d rest)))) in
  let cut := String "$"%char (String a (String b (String c EmptyString))) in
  first_price text = Some cut
  /\ exists more, matchAll_pricePattern text = cut :: more.
Proof.
  intros Ha Hb Hc Hd text cut.
  assert (price_at text = Some cut) as Hat.
  { unfold text, price_at. cbn [digits_upto]. rewrite Ha, Hb, Hc.
    change (String.eqb (String a (String b (String c EmptyString))) EmptyString) with false.
    cbv iota. rewrite (digit_groups d rest Hd), (digit_fraction d rest Hd). reflexivity. }
  unfold first_price, matchAll_pricePattern.
  change (matchAll_price_from 0 text)
    with (match price_at text with
          | Some m => m :: matchAll_price_from (String.length m - 1)
                             (String a (String b (String c (String d rest))))
          | None => matchAll_price_from 0 (String a (String b (String c (String d rest))))
          end).
  rewrite Hat. split; [reflexivity | eexists; reflexivity].
Qed.

(** A price of one and a quarter million written without commas. *)
Lemma ungrouped_price_is_cut_witness :
  first_price "$1250000 4 bd" = Some "$125"
  /\ exists more, matchAll_pricePattern "$1250000 4 bd" = "$125" :: more.
Proof.
  exact (ungrouped_price_is_cut "1"%char "2"%char "5"%char "0"%char "000 4 bd"
           eq_refl eq_refl eq_refl eq_refl).
Defined.
